(** * Hotel booking backend: availability, booking creation, cancellation

    A shallow embedding of the booking core of the Express/Prisma backend
    ([backend/routes/rooms.js], the bookings router that follows it in the
    same listing, and [backend/middleware/validation.js]), with the room
    filter of the hotel search ([backend/routes/users.js], second router).

    Conventions of the embedding:
    - a JavaScript [Date] is its epoch value in milliseconds, a [Z];
      date strings are taken already parsed;
    - the relational tables are finite maps from the primary key (a string)
      to the row, so a key identifies at most one row;
    - a route handler is a function from the database (and the request) to
      the new database and the response; the handlers that only read return
      the response alone;
    - a JavaScript number is the rational it denotes; the product that
      [POST /bookings] stores is rounded as binary64 multiplication rounds
      it ([times]), the sum of the statistics is left exact. *)

From Stdlib Require Import ZArith QArith Qround Qpower Qabs Lia Lqa.
From Stdlib Require PrimFloat FloatOps SpecFloat.
From stdpp Require Import base gmap strings list fin_maps.

Close Scope Q_scope.
Open Scope Z_scope.

(** ** Data model *)

Inductive BookingStatus := PENDING | CONFIRMED | CANCELLED | COMPLETED.

Module Room.
Record t := mk {
  id : string;
  hotelId : string;
  type : string;
  price : Q;
  totalRooms : Z;
  availableRooms : Z
}.
End Room.

Module Booking.
Record t := mk {
  id : string;
  userId : string;
  roomId : string;
  checkinDate : Z;
  checkoutDate : Z;
  totalPrice : Q;
  guests : Z;
  status : BookingStatus
}.

(** [prisma.booking.update({ where: { id }, data: { status } })] on a row. *)
Definition withStatus (st : BookingStatus) (b : t) : t :=
  mk (id b) (userId b) (roomId b) (checkinDate b) (checkoutDate b)
     (totalPrice b) (guests b) st.
End Booking.

(** [req.user], as [authenticateToken] attaches it. *)
Module User.
Record t := mk { id : string; role : string }.
End User.

(** The two tables the booking core reads and writes. *)
Record Db := mkDb {
  rooms : gmap string Room.t;
  bookings : gmap string Booking.t
}.

(** ** Responses *)

(** The [error] field of every failure response of the modelled routes;
    [ValidationError] carries the messages of [errors.array()]. *)
Inductive ApiError :=
  | MissingParameters
  | InvalidDates
  | RoomNotFound
  | ValidationError (details : list string)
  | RoomNotAvailable
  | BookingNotFound
  | AccessDenied
  | AlreadyCancelled
  | CannotCancel
  | InvalidStatus
  | InternalServerError.

Definition httpStatus (e : ApiError) : Z :=
  match e with
  | MissingParameters | InvalidDates | ValidationError _ | RoomNotAvailable
  | AlreadyCancelled | CannotCancel | InvalidStatus => 400
  | AccessDenied => 403
  | RoomNotFound | BookingNotFound => 404
  | InternalServerError => 500
  end.

(** The error taxonomy of the specification, and the class each reported
    error falls in. *)
Inductive ErrorClass :=
  | NotFound | InvalidRange | RoomUnavailable | Forbidden
  | AlreadyCancelledClass | CannotCancelClass | InternalFailure.

Definition errorClass (e : ApiError) : ErrorClass :=
  match e with
  | MissingParameters | InvalidDates | ValidationError _ | InvalidStatus => InvalidRange
  | RoomNotFound | BookingNotFound => NotFound
  | RoomNotAvailable => RoomUnavailable
  | AccessDenied => Forbidden
  | AlreadyCancelled => AlreadyCancelledClass
  | CannotCancel => CannotCancelClass
  | InternalServerError => InternalFailure
  end.

Inductive Response (A : Type) :=
  | Ok (body : A)
  | Err (e : ApiError).
Arguments Ok {A} body.
Arguments Err {A} e.

(** ** The overlap query *)

(** [status: { in: ['PENDING', 'CONFIRMED'] }] *)
Definition activeStatus (st : BookingStatus) : bool :=
  match st with
  | PENDING | CONFIRMED => true
  | CANCELLED | COMPLETED => false
  end.

(** The [OR] of the three [AND] blocks of the [where] clause, on a stored
    booking, for the requested [checkin] and [checkout]. *)
Definition overlapWhere (checkin checkout : Z) (b : Booking.t) : bool :=
  ((Booking.checkinDate b <=? checkin) && (Booking.checkoutDate b >=? checkin))
  || ((Booking.checkinDate b <=? checkout) && (Booking.checkoutDate b >=? checkout))
  || ((Booking.checkinDate b >=? checkin) && (Booking.checkoutDate b <=? checkout)).

(** The whole [where] clause of the conflict query of a room. *)
Definition conflictWhere (roomId : string) (checkin checkout : Z)
    (b : Booking.t) : bool :=
  String.eqb (Booking.roomId b) roomId
  && activeStatus (Booking.status b)
  && overlapWhere checkin checkout b.

(** [prisma.booking.findMany({ where })]: the rows that satisfy the
    condition. *)
Definition findMany (cond : Booking.t -> bool) (db : Db) : list Booking.t :=
  List.filter cond (snd <$> map_to_list (bookings db)).

(** The [bookings] relation that [GET /rooms/:id/availability] includes with
    the room: the bookings of this room that satisfy the nested [where]. *)
Definition roomBookings (id : string) (checkin checkout : Z) (db : Db)
    : list Booking.t :=
  findMany (conflictWhere id checkin checkout) db.

(** [conflictingBookings] of [POST /bookings]. *)
Definition conflictingBookings (roomId : string) (checkin checkout : Z)
    (db : Db) : list Booking.t :=
  findMany (conflictWhere roomId checkin checkout) db.

(** ** GET /rooms/:id/availability *)

Module Availability.
Record t := mk {
  roomId : string;
  checkinDate : Z;
  checkoutDate : Z;
  totalRooms : Z;
  bookedRooms : Z;
  availableRooms : Z;
  isAvailable : bool
}.
End Availability.

(** The query parameters are [None] when absent (or empty, which JavaScript
    also treats as false).  The [validateId] chain in front of the handler
    only asks for a non-empty [:id], which every matched route has. *)
Definition checkAvailability (db : Db) (id : string)
    (checkinDate checkoutDate : option Z) : Response Availability.t :=
  match checkinDate, checkoutDate with
  | Some checkin, Some checkout =>
      if checkin >=? checkout then Err InvalidDates
      else
        match rooms db !! id with
        | None => Err RoomNotFound
        | Some room =>
            let bookedRooms := Z.of_nat (length (roomBookings id checkin checkout db)) in
            let availableRooms := Room.availableRooms room - bookedRooms in
            Ok (Availability.mk (Room.id room) checkin checkout
                  (Room.totalRooms room) bookedRooms
                  (Z.max 0 availableRooms) (availableRooms >? 0))
        end
  | _, _ => Err MissingParameters
  end.

(** ** Validation of a booking request *)

Module BookingBody.
Record t := mk {
  roomId : string;
  checkinDate : Z;
  checkoutDate : Z;
  guests : Z
}.
End BookingBody.

(** What [new Date()] reads: the current instant, and the offset of local
    time from UTC, both in milliseconds. *)
Record Clock := mkClock { now : Z; tzOffset : Z }.

Definition msPerDay : Z := 1000 * 60 * 60 * 24.

(** [today.setHours(0, 0, 0, 0)]: the instant of local midnight. *)
Definition today (c : Clock) : Z :=
  now c - (now c + tzOffset c) mod msPerDay.

(** The chains of [validateBooking], in order; the result is
    [errors.array()], which [handleValidationErrors] turns into a 400 when
    it is not empty.  A [BookingBody.t] carries a string as room identifier
    and parsed instants as dates: the links [isString()] and [isISO8601()]
    of the chains, whose message is the default [Invalid value], pass on
    every such body and contribute nothing here; a body of another shape
    is outside this model. *)
Definition validateBooking (c : Clock) (body : BookingBody.t) : list string :=
  (if String.eqb (BookingBody.roomId body) "" then ["Room ID is required"%string] else [])
  ++ (if BookingBody.checkinDate body <? today c
      then ["Check-in date cannot be in the past"%string] else [])
  ++ (if BookingBody.checkoutDate body <=? BookingBody.checkinDate body
      then ["Check-out date must be after check-in date"%string] else [])
  ++ (if (1 <=? BookingBody.guests body) && (BookingBody.guests body <=? 10)
      then [] else ["Number of guests must be between 1 and 10"%string]).

(** ** JavaScript numbers *)

(** The finite numbers of the runtime are the binary64 values: the
    rationals [m * 2^e] with [|m| < 2^53] and [-1074 <= e <= 971]. *)

Definition pow2 (e : Z) : Q := Qpower 2 e.

(** The integer part of the binary logarithm of a positive rational. *)
Definition ilog2 (q : Q) : Z :=
  let k := Z.log2 (Qnum q) - Z.log2 (Zpos (Qden q)) in
  if Qle_bool (pow2 k) q then k else k - 1.

(** Rounding to the nearest integer, ties to even. *)
Definition roundHalfEven (q : Q) : Z :=
  let f := Qfloor q in
  match Qcompare (q - inject_Z f) (1 # 2) with
  | Lt => f
  | Gt => f + 1
  | Eq => if Z.even f then f else f + 1
  end.

(** Rounding of a positive rational to 53 significant bits, with the
    exponent bounded below as for subnormal numbers. *)
Definition roundPositive (q : Q) : Q :=
  let e := Z.max (-1074) (ilog2 q - 52) in
  Qred (inject_Z (roundHalfEven (q / pow2 e)) * pow2 e).

(** Round to nearest, ties to even, without the overflow to [Infinity]. *)
Definition binary64 (q : Q) : Q :=
  match Qcompare q 0 with
  | Eq => 0%Q
  | Gt => roundPositive q
  | Lt => Qopp (roundPositive (Qopp q))
  end.

(** [Number.MAX_VALUE] *)
Definition maxNumber : Q := (inject_Z (2 ^ 53 - 1) * pow2 971)%Q.

(** The rationals that are finite numbers of the runtime. *)
Definition isNumber (q : Q) : bool :=
  Qeq_bool (binary64 q) q && Qle_bool (Qabs q) maxNumber.

(** [x * y] on numbers: the exact product, rounded. Where the rationals
    have no value to offer (an operand that is not a number of the
    runtime, or a product beyond [Number.MAX_VALUE], which the runtime
    makes [Infinity]) the product is left exact. *)
Definition times (x y : Q) : Q :=
  if isNumber x && isNumber y && Qle_bool (Qabs (binary64 (x * y))) maxNumber
  then binary64 (x * y)
  else (x * y)%Q.

(** The rational a primitive binary64 float denotes, when it is finite;
    used to compare [times] with the multiplication of the hardware. *)
Definition numberOfFloat (f : PrimFloat.float) : option Q :=
  match FloatOps.Prim2SF f with
  | SpecFloat.S754_zero _ => Some 0%Q
  | SpecFloat.S754_finite s m e =>
      Some (Qred ((if s then - 1 else 1) * inject_Z (Zpos m) * pow2 e))
  | _ => None
  end.

(** [times] on the numbers two finite floats denote. *)
Definition timesOfFloats (x y : PrimFloat.float) : option Q :=
  match numberOfFloat x, numberOfFloat y with
  | Some a, Some b => Some (times a b)
  | _, _ => None
  end.

(** ** POST /bookings *)

(** [Math.ceil(x / d)] on integers, for a positive [d]. *)
Definition ceilDiv (x d : Z) : Z := - ((- x) / d).

(** [newId] is the identifier the database generates for the new row; the
    primary key is unique, so an identifier already in use makes
    [prisma.booking.create] throw, which the handler reports as a 500. *)
Definition createBooking (c : Clock) (db : Db) (user : User.t)
    (body : BookingBody.t) (newId : string) : Db * Response Booking.t :=
  match validateBooking c body with
  | (_ :: _) as errors => (db, Err (ValidationError errors))
  | [] =>
      let roomId := BookingBody.roomId body in
      let checkin := BookingBody.checkinDate body in
      let checkout := BookingBody.checkoutDate body in
      let nights := ceilDiv (checkout - checkin) msPerDay in
      match rooms db !! roomId with
      | None => (db, Err RoomNotFound)
      | Some room =>
          let bookedRooms :=
            Z.of_nat (length (conflictingBookings roomId checkin checkout db)) in
          let availableRooms := Room.availableRooms room - bookedRooms in
          if availableRooms <=? 0 then (db, Err RoomNotAvailable)
          else
            let totalPrice := times (Room.price room) (inject_Z nights) in
            let booking :=
              Booking.mk newId (User.id user) roomId checkin checkout
                totalPrice (BookingBody.guests body) PENDING in
            match bookings db !! newId with
            | Some _ => (db, Err InternalServerError)
            | None =>
                (mkDb (rooms db) (<[newId := booking]> (bookings db)), Ok booking)
            end
      end
  end.

(** ** PUT /bookings/:id/status *)

(** [validStatuses.includes(status)], with the status it names. *)
Definition parseStatus (s : string) : option BookingStatus :=
  if String.eqb s "PENDING" then Some PENDING
  else if String.eqb s "CONFIRMED" then Some CONFIRMED
  else if String.eqb s "CANCELLED" then Some CANCELLED
  else if String.eqb s "COMPLETED" then Some COMPLETED
  else None.

(** [requireAdmin] *)
Definition isAdmin (user : User.t) : bool := String.eqb (User.role user) "ADMIN".

(** [requireAdmin], then the handler; an update of a row that does not exist
    throws [P2025], reported as a 404. *)
Definition updateBookingStatus (db : Db) (user : User.t) (id : string)
    (status : string) : Db * Response Booking.t :=
  if negb (isAdmin user) then (db, Err AccessDenied)
  else
    match parseStatus status with
    | None => (db, Err InvalidStatus)
    | Some st =>
        match bookings db !! id with
        | None => (db, Err BookingNotFound)
        | Some b =>
            let booking := Booking.withStatus st b in
            (mkDb (rooms db) (<[id := booking]> (bookings db)), Ok booking)
        end
    end.

(** ** PUT /bookings/:id/cancel *)

Definition statusEqb (a b : BookingStatus) : bool :=
  match a, b with
  | PENDING, PENDING | CONFIRMED, CONFIRMED
  | CANCELLED, CANCELLED | COMPLETED, COMPLETED => true
  | _, _ => false
  end.

Definition cancelBooking (db : Db) (user : User.t) (id : string)
    : Db * Response Booking.t :=
  match bookings db !! id with
  | None => (db, Err BookingNotFound)
  | Some existingBooking =>
      if negb (String.eqb (User.role user) "ADMIN")
         && negb (String.eqb (Booking.userId existingBooking) (User.id user))
      then (db, Err AccessDenied)
      else if statusEqb (Booking.status existingBooking) CANCELLED
      then (db, Err AlreadyCancelled)
      else if statusEqb (Booking.status existingBooking) COMPLETED
      then (db, Err CannotCancel)
      else
        let booking := Booking.withStatus CANCELLED existingBooking in
        (mkDb (rooms db) (<[id := booking]> (bookings db)), Ok booking)
  end.

(** ** Sequences of requests *)

(** The requests of the booking core that reach a handler. *)
Inductive Request :=
  | GetAvailability (id : string) (checkinDate checkoutDate : option Z)
  | PostBooking (c : Clock) (user : User.t) (body : BookingBody.t) (newId : string)
  | PutBookingStatus (user : User.t) (id : string) (status : string)
  | PutBookingCancel (user : User.t) (id : string).

Definition handle (db : Db) (r : Request) : Db :=
  match r with
  | GetAvailability _ _ _ => db
  | PostBooking c user body newId => fst (createBooking c db user body newId)
  | PutBookingStatus user id status => fst (updateBookingStatus db user id status)
  | PutBookingCancel user id => fst (cancelBooking db user id)
  end.

Definition handleAll (db : Db) (rs : list Request) : Db :=
  fold_left handle rs db.

(** An administrator's status update. *)
Definition isAdminStatusUpdate (r : Request) : bool :=
  match r with
  | PutBookingStatus user _ _ => isAdmin user
  | _ => false
  end.

(** The status of the booking [id], if it is stored. *)
Definition statusOf (db : Db) (id : string) : option BookingStatus :=
  Booking.status <$> bookings db !! id.

(** ** Sample data *)

(** Midnight UTC of day [d] of January 2024. *)
Definition jan2024 (d : Z) : Z := 1704067200000 + (d - 1) * msPerDay.

Definition guest : User.t := User.mk "u1" "USER".
Definition stranger : User.t := User.mk "u2" "USER".
Definition administrator : User.t := User.mk "a1" "ADMIN".

(** A room priced 2000 per night, with the given inventory fields. *)
Definition sampleRoom (totalRooms availableRooms : Z) : Room.t :=
  Room.mk "r1" "h1" "Double" (2000 # 1) totalRooms availableRooms.

(** A booking of [guest] for the sample room. *)
Definition stay (id : string) (checkin checkout : Z) (st : BookingStatus)
    : Booking.t :=
  Booking.mk id "u1" "r1" checkin checkout (10000 # 1) 2 st.

Definition sampleDb (room : Room.t) (bs : list Booking.t) : Db :=
  mkDb {[ Room.id room := room ]}
       (list_to_map ((fun b => (Booking.id b, b)) <$> bs)).

(** The clock at noon UTC on 1 January 2024, in a UTC+5:30 zone. *)
Definition newYearNoon : Clock := mkClock (jan2024 1 + 12 * 3600000) 19800000.

(** ** Properties of the overlap query *)

(** The number of stored rows a condition selects. *)
Definition countWhere (cond : Booking.t -> bool) (db : Db) : nat :=
  size (filter (fun kv : string * Booking.t => cond kv.2 = true) (bookings db)).

(** ** GET /bookings/:id *)

Definition getBooking (db : Db) (user : User.t) (id : string)
    : Response Booking.t :=
  match bookings db !! id with
  | None => Err BookingNotFound
  | Some booking =>
      if negb (String.eqb (User.role user) "ADMIN")
         && negb (String.eqb (Booking.userId booking) (User.id user))
      then Err AccessDenied
      else Ok booking
  end.

(** ** GET /bookings/stats/summary *)

Module Stats.
Record t := mk {
  totalBookings : Z;
  pendingBookings : Z;
  confirmedBookings : Z;
  cancelledBookings : Z;
  completedBookings : Z;
  totalRevenue : Q
}.
End Stats.

(** [prisma.booking.count({ where })] *)
Definition countBookings (cond : Booking.t -> bool) (db : Db) : Z :=
  Z.of_nat (length (findMany cond db)).

(** [where: { status: ... }] *)
Definition hasStatus (st : BookingStatus) (b : Booking.t) : bool :=
  statusEqb (Booking.status b) st.

(** [status: { in: ['CONFIRMED', 'COMPLETED'] }] *)
Definition earnsRevenue (b : Booking.t) : bool :=
  match Booking.status b with
  | CONFIRMED | COMPLETED => true
  | PENDING | CANCELLED => false
  end.

(** [_sum.totalPrice] of an aggregate: [null] when no row matches.  The
    sum is the database's; it is taken here as the exact sum of the totals
    of the rows, so what is stated of it is stated up to the rounding of
    the database, and the effect of a changed row is stated on the rows
    summed ([findMany earnsRevenue]) instead. *)
Definition sumTotalPrice (l : list Booking.t) : option Q :=
  match l with
  | [] => None
  | _ => Some (foldr (fun b acc => Qplus (Booking.totalPrice b) acc) 0%Q l)
  end.

(** [revenue._sum.totalPrice || 0]: [null] becomes 0, and a sum that is
    zero stays zero. *)
Definition orZero (o : option Q) : Q :=
  match o with
  | None => 0%Q
  | Some q => q
  end.

(** [requireAdmin], then the handler. *)
Definition getBookingStats (db : Db) (user : User.t) : Response Stats.t :=
  if negb (isAdmin user) then Err AccessDenied
  else
    let totalBookings := countBookings (fun _ => true) db in
    let pendingBookings := countBookings (hasStatus PENDING) db in
    let confirmedBookings := countBookings (hasStatus CONFIRMED) db in
    let cancelledBookings := countBookings (hasStatus CANCELLED) db in
    let completedBookings := countBookings (hasStatus COMPLETED) db in
    let revenue := sumTotalPrice (findMany earnsRevenue db) in
    Ok (Stats.mk totalBookings pendingBookings confirmedBookings
          cancelledBookings completedBookings (orZero revenue)).

(** ** DELETE /rooms/:id *)

(** What the database does with the bookings that reference a deleted
    room. The schema that fixes it is not part of the listing, so the
    handler is modelled for both actions. *)
Inductive ReferentialAction := Cascade | Restrict.

Inductive DeleteRoomResult :=
  | RoomDeleted
  | DeleteAccessDenied
  | CannotDeleteRoom
  | DeleteRoomNotFound
  | DeleteInternalServerError.

Definition deleteRoomStatus (r : DeleteRoomResult) : Z :=
  match r with
  | RoomDeleted => 200
  | DeleteAccessDenied => 403
  | CannotDeleteRoom => 400
  | DeleteRoomNotFound => 404
  | DeleteInternalServerError => 500
  end.

(** [where: { roomId: id, status: { in: ['PENDING', 'CONFIRMED'] } }] *)
Definition activeOfRoom (id : string) (b : Booking.t) : bool :=
  String.eqb (Booking.roomId b) id && activeStatus (Booking.status b).

Definition ofRoom (id : string) (b : Booking.t) : bool :=
  String.eqb (Booking.roomId b) id.

(** [requireAdmin], then the handler. Deleting a room that does not exist
    throws [P2025] (404); a foreign-key refusal is any other error (500). *)
Definition deleteRoom (onDelete : ReferentialAction) (db : Db) (user : User.t)
    (id : string) : Db * DeleteRoomResult :=
  if negb (isAdmin user) then (db, DeleteAccessDenied)
  else
    let activeBookings := findMany (activeOfRoom id) db in
    if (0 <? length activeBookings)%nat then (db, CannotDeleteRoom)
    else
      match rooms db !! id with
      | None => (db, DeleteRoomNotFound)
      | Some _ =>
          match onDelete with
          | Restrict =>
              match findMany (ofRoom id) db with
              | [] => (mkDb (delete id (rooms db)) (bookings db), RoomDeleted)
              | _ :: _ => (db, DeleteInternalServerError)
              end
          | Cascade =>
              (mkDb (delete id (rooms db))
                 (filter (fun kv : string * Booking.t => ofRoom id kv.2 = false)
                    (bookings db)),
               RoomDeleted)
          end
      end.

(** ** The room filter of the hotel search (GET /hotels) *)

(** The query parameters the room filter reads; [None] when absent. *)
Module SearchQuery.
Record t := mk {
  checkinDate : option Z;
  checkoutDate : option Z;
  minPrice : option Q;
  maxPrice : option Q
}.
End SearchQuery.

(** The [OR] entry of the room filter, present when both dates are:
    [availableRooms > 0], or no booking of the room, of any status,
    satisfies the overlap blocks. *)
Definition datesWhere (db : Db) (q : SearchQuery.t) (room : Room.t) : bool :=
  match SearchQuery.checkinDate q, SearchQuery.checkoutDate q with
  | Some checkin, Some checkout =>
      (Room.availableRooms room >? 0)
      || forallb (fun b => negb (overlapWhere checkin checkout b))
           (findMany (ofRoom (Room.id room)) db)
  | _, _ => true
  end.

(** The values the room filter object holds: the [price] entry with the
    one bound it was written with, and the [OR] entry of the two dates. *)
Inductive RoomCondition :=
  | PriceGte (minPrice : Q)
  | PriceLte (maxPrice : Q)
  | AvailableFor (checkin checkout : Z).

(** [...src] inside an object literal: the keys of [src], when it is an
    object, are written over what the literal holds so far; spreading a
    value that is not an object writes nothing. *)
Definition spread (src : option (gmap string RoomCondition))
    (obj : gmap string RoomCondition) : gmap string RoomCondition :=
  match src with
  | Some o => o ∪ obj
  | None => obj
  end.

(** The [where] object of the included rooms, built by its three spreads
    in order: [minPrice && { price: { gte } }], then
    [maxPrice && { price: { lte } }], then the [OR] entry of the dates. *)
Definition roomWhere (q : SearchQuery.t) : gmap string RoomCondition :=
  spread
    (match SearchQuery.checkinDate q, SearchQuery.checkoutDate q with
     | Some checkin, Some checkout =>
         Some {[ "OR"%string := AvailableFor checkin checkout ]}
     | _, _ => None
     end)
    (spread
       ((fun maxPrice => {[ "price"%string := PriceLte maxPrice ]})
          <$> SearchQuery.maxPrice q)
       (spread
          ((fun minPrice => {[ "price"%string := PriceGte minPrice ]})
             <$> SearchQuery.minPrice q)
          ∅)).

(** Whether a room satisfies one entry of the filter. *)
Definition satisfies (db : Db) (room : Room.t) (cnd : RoomCondition) : bool :=
  match cnd with
  | PriceGte minPrice => Qle_bool minPrice (Room.price room)
  | PriceLte maxPrice => Qle_bool (Room.price room) maxPrice
  | AvailableFor checkin checkout =>
      datesWhere db (SearchQuery.mk (Some checkin) (Some checkout) None None) room
  end.

(** A room is included when it satisfies every entry of the object. *)
Definition searchRoomWhere (db : Db) (q : SearchQuery.t) (room : Room.t) : bool :=
  forallb (fun kv : string * RoomCondition => satisfies db room kv.2)
    (map_to_list (roomWhere q)).

(** ** Well-formed rows *)

(** A stored booking as [POST /bookings] writes it: check-out after
    check-in, one to ten guests. *)
Definition wellFormed (b : Booking.t) : Prop :=
  Booking.checkinDate b < Booking.checkoutDate b
  ∧ 1 <= Booking.guests b <= 10.

(** ** Occupancy at an instant *)

(** An active booking of room [rid] whose stay, end points included,
    contains the instant [t]. *)
Definition occupies (rid : string) (t : Z) (b : Booking.t) : bool :=
  String.eqb (Booking.roomId b) rid
  && activeStatus (Booking.status b)
  && (Booking.checkinDate b <=? t) && (t <=? Booking.checkoutDate b).

(** At no instant does a room hold more active bookings than its
    [availableRooms] field. *)
Definition noOverbooking (db : Db) : Prop :=
  ∀ (rid : string) (room : Room.t) (t : Z),
    rooms db !! rid = Some room →
    Z.of_nat (countWhere (occupies rid t) db) <= Room.availableRooms room.

(** ** POST /rooms and PUT /rooms/:id *)

(** The request body of the room routes. [type] is the value as the
    [trim()] sanitizer of the chain leaves it in [req.body]; the length of
    [description] is counted in characters. *)
Module RoomBody.
Record t := mk {
  hotelId : string;
  type : string;
  price : Q;
  totalRooms : Z;
  availableRooms : Z;
  description : option string
}.

Definition withAvailableRooms (n : Z) (b : t) : t :=
  mk (hotelId b) (type b) (price b) (totalRooms b) n (description b).
End RoomBody.

Definition roomTypes : list string :=
  ["Single"; "Double"; "Suite"; "Deluxe"; "Presidential"]%string.

(** The chains of [validateRoom], in order. *)
Definition validateRoom (body : RoomBody.t) : list string :=
  (if String.eqb (RoomBody.hotelId body) "" then ["Hotel ID is required"%string] else [])
  ++ (if existsb (String.eqb (RoomBody.type body)) roomTypes then []
      else ["Room type must be one of: Single, Double, Suite, Deluxe, Presidential"%string])
  ++ (if Qle_bool 0 (RoomBody.price body) then []
      else ["Price must be a positive number"%string])
  ++ (if 1 <=? RoomBody.totalRooms body then []
      else ["Total rooms must be at least 1"%string])
  ++ (if 0 <=? RoomBody.availableRooms body then []
      else ["Available rooms must be non-negative"%string])
  ++ (match RoomBody.description body with
      | Some d =>
          if (String.length d <=? 500)%nat then []
          else ["Description must not exceed 500 characters"%string]
      | None => []
      end).

(** The answers of the two routes: the written room, an error of the
    common kind, or the 400 [Hotel Not Found]. *)
Inductive RoomWrite :=
  | RoomOk (room : Room.t)
  | RoomErr (e : ApiError)
  | HotelNotFound.

(** [requireAdmin], [validateRoom], then the handler. [hotels] holds the
    identifiers of the stored hotels, [newId] the identifier the database
    generates. *)
Definition createRoom (hotels : gset string) (db : Db) (user : User.t)
    (body : RoomBody.t) (newId : string) : Db * RoomWrite :=
  if negb (isAdmin user) then (db, RoomErr AccessDenied)
  else
    match validateRoom body with
    | (_ :: _) as errors => (db, RoomErr (ValidationError errors))
    | [] =>
        if bool_decide (RoomBody.hotelId body ∈ hotels) then
          match rooms db !! newId with
          | Some _ => (db, RoomErr InternalServerError)
          | None =>
              let room :=
                Room.mk newId (RoomBody.hotelId body) (RoomBody.type body)
                  (RoomBody.price body) (RoomBody.totalRooms body)
                  (RoomBody.availableRooms body) in
              (mkDb (<[newId := room]> (rooms db)) (bookings db), RoomOk room)
          end
        else (db, HotelNotFound)
    end.

(** [requireAdmin], [validateRoom], then the handler; the hotel is looked up
    whenever [hotelId] is not empty, which validation has ensured, and an
    update of a room that does not exist throws [P2025] (404). *)
Definition updateRoom (hotels : gset string) (db : Db) (user : User.t)
    (id : string) (body : RoomBody.t) : Db * RoomWrite :=
  if negb (isAdmin user) then (db, RoomErr AccessDenied)
  else
    match validateRoom body with
    | (_ :: _) as errors => (db, RoomErr (ValidationError errors))
    | [] =>
        if negb (String.eqb (RoomBody.hotelId body) "")
           && negb (bool_decide (RoomBody.hotelId body ∈ hotels))
        then (db, HotelNotFound)
        else
          match rooms db !! id with
          | None => (db, RoomErr RoomNotFound)
          | Some old =>
              let room :=
                Room.mk (Room.id old) (RoomBody.hotelId body) (RoomBody.type body)
                  (RoomBody.price body) (RoomBody.totalRooms body)
                  (RoomBody.availableRooms body) in
              (mkDb (<[id := room]> (rooms db)) (bookings db), RoomOk room)
          end
    end.

(** A body the room routes accept, for hotel [h1]. *)
Definition sampleRoomBody (totalRooms availableRooms : Z) : RoomBody.t :=
  RoomBody.mk "h1" "Double" (2000 # 1) totalRooms availableRooms None.

(** ** Lemmas on the queries *)

Lemma elem_of_findMany (cond : Booking.t -> bool) (db : Db) (b : Booking.t) :
  b ∈ findMany cond db ↔ (∃ k, bookings db !! k = Some b) ∧ cond b = true.
Proof.
  unfold findMany. rewrite list_elem_of_In, filter_In, <- list_elem_of_In.
  rewrite list_elem_of_fmap. split.
  - intros [[[k b'] [-> Hin]] Hc]. split; [|done].
    exists k. by apply elem_of_map_to_list.
  - intros [[k Hk] Hc]. split; [|done].
    exists (k, b). split; [done|]. by apply elem_of_map_to_list.
Qed.

Lemma length_filter_snd_perm (cond : Booking.t -> bool)
    (l l' : list (string * Booking.t)) :
  l ≡ₚ l' →
  length (List.filter cond (snd <$> l)) = length (List.filter cond (snd <$> l')).
Proof.
  induction 1 as [|x l l' _ IH|x y l|l l' l'' _ IH1 _ IH2]; simpl.
  - reflexivity.
  - destruct (cond x.2); simpl; [exact (f_equal S IH) | exact IH].
  - destruct (cond x.2), (cond y.2); reflexivity.
  - exact (eq_trans IH1 IH2).
Qed.

Lemma length_findMany (cond : Booking.t -> bool) (db : Db) :
  length (findMany cond db) = countWhere cond db.
Proof.
  unfold findMany, countWhere. generalize (bookings db). clear db.
  intros m. induction m as [|k b m Hk IH] using map_ind.
  - by rewrite map_to_list_empty, map_filter_empty, map_size_empty.
  - rewrite (length_filter_snd_perm cond _ _ (map_to_list_insert m k b Hk)).
    rewrite fmap_cons. cbn [List.filter snd]. destruct (cond b) eqn:Hc.
    + cbn [length]. rewrite IH.
      rewrite map_filter_insert_True by done.
      by rewrite map_size_insert_None by (rewrite map_lookup_filter_None; auto).
    + rewrite IH.
      by rewrite map_filter_insert_not' by (simpl; intros; congruence).
Qed.

Lemma overlapWhere_closed (checkin checkout : Z) (b : Booking.t) :
  checkin <= checkout →
  Booking.checkinDate b <= Booking.checkoutDate b →
  overlapWhere checkin checkout b = true
  ↔ Booking.checkinDate b <= checkout ∧ checkin <= Booking.checkoutDate b.
Proof.
  intros Hreq Hst. unfold overlapWhere.
  rewrite !orb_true_iff, !andb_true_iff, !Z.leb_le, !Z.geb_le. lia.
Qed.

Lemma conflictWhere_true (roomId : string) (checkin checkout : Z) (b : Booking.t) :
  conflictWhere roomId checkin checkout b = true
  ↔ Booking.roomId b = roomId
    ∧ activeStatus (Booking.status b) = true
    ∧ overlapWhere checkin checkout b = true.
Proof.
  unfold conflictWhere. rewrite !andb_true_iff, String.eqb_eq. tauto.
Qed.

(** C1 (as stated, refuted): a stored booking for [10 Jan, 15 Jan) is
    counted against the request [15 Jan, 20 Jan) by the availability check
    and by booking creation, although the half-open test [a < d && c < b]
    fails for the two ranges. *)
Lemma half_open_overlap_refuted :
  let b := stay "b1" (jan2024 10) (jan2024 15) CONFIRMED in
  let db := sampleDb (sampleRoom 1 1) [b] in
  b ∈ roomBookings "r1" (jan2024 15) (jan2024 20) db
  ∧ b ∈ conflictingBookings "r1" (jan2024 15) (jan2024 20) db
  ∧ ¬ (Booking.checkinDate b < jan2024 20 ∧ jan2024 15 < Booking.checkoutDate b).
Proof.
  simpl. split; [|split].
  - vm_compute. apply list_elem_of_here.
  - vm_compute. apply list_elem_of_here.
  - vm_compute. intros [_ H]. discriminate H.
Qed.

(** C1 (amended): for a request [c, d) with [c < d], a stored booking whose
    range [a, b) has [a <= b] is counted by the availability check, and by
    booking creation, exactly when it belongs to the room, is [PENDING] or
    [CONFIRMED], and the closed-interval test [a <= d && c <= b] holds; so
    ranges that only touch at an end point count as overlapping. *)
Theorem overlap_counts_closed_interval (db : Db) (rid : string) (c d : Z)
    (bk : Booking.t) :
  c < d →
  Booking.checkinDate bk <= Booking.checkoutDate bk →
  let counted :=
    (∃ k, bookings db !! k = Some bk)
    ∧ Booking.roomId bk = rid
    ∧ activeStatus (Booking.status bk) = true
    ∧ Booking.checkinDate bk <= d ∧ c <= Booking.checkoutDate bk in
  (bk ∈ roomBookings rid c d db ↔ counted)
  ∧ (bk ∈ conflictingBookings rid c d db ↔ counted).
Proof.
  intros Hcd Hab counted. subst counted.
  unfold roomBookings, conflictingBookings.
  rewrite elem_of_findMany, conflictWhere_true.
  rewrite overlapWhere_closed by lia. tauto.
Qed.

(** The two ranges of the specification's example, under the amended test:
    [10 Jan, 15 Jan) is counted against [14 Jan, 20 Jan) and against
    [15 Jan, 20 Jan). *)
Lemma overlap_counts_closed_interval_witness :
  let b := stay "b1" (jan2024 10) (jan2024 15) CONFIRMED in
  let db := sampleDb (sampleRoom 1 1) [b] in
  (b ∈ roomBookings "r1" (jan2024 14) (jan2024 20) db
   ∧ b ∈ conflictingBookings "r1" (jan2024 14) (jan2024 20) db)
  ∧ (b ∈ roomBookings "r1" (jan2024 15) (jan2024 20) db
     ∧ b ∈ conflictingBookings "r1" (jan2024 15) (jan2024 20) db).
Proof.
  intros b db.
  assert (Hst : ∃ k, bookings db !! k = Some b) by (exists "b1"%string; reflexivity).
  split.
  - pose proof (overlap_counts_closed_interval db "r1" (jan2024 14) (jan2024 20) b
                  ltac:(vm_compute; reflexivity)
                  ltac:(vm_compute; discriminate)) as [H1 H2].
    split; [apply H1 | apply H2];
      (split; [exact Hst|]; repeat split; vm_compute; discriminate).
  - pose proof (overlap_counts_closed_interval db "r1" (jan2024 15) (jan2024 20) b
                  ltac:(vm_compute; reflexivity)
                  ltac:(vm_compute; discriminate)) as [H1 H2].
    split; [apply H1 | apply H2];
      (split; [exact Hst|]; repeat split; vm_compute; discriminate).
Defined.

(** ** The availability result *)

(** What the handler answers for an existing room and a well-ordered range. *)
Lemma checkAvailability_valid (db : Db) (id : string) (room : Room.t) (c d : Z) :
  rooms db !! id = Some room →
  c < d →
  let bookedRooms := Z.of_nat (countWhere (conflictWhere id c d) db) in
  checkAvailability db id (Some c) (Some d)
  = Ok (Availability.mk (Room.id room) c d (Room.totalRooms room) bookedRooms
          (Z.max 0 (Room.availableRooms room - bookedRooms))
          (Room.availableRooms room - bookedRooms >? 0)).
Proof.
  intros Hroom Hcd. unfold checkAvailability.
  assert ((c >=? d) = false) as -> by (rewrite Z.geb_leb; apply Z.leb_gt; lia).
  rewrite Hroom. unfold roomBookings. by rewrite length_findMany.
Qed.

(** C2 (as stated, refuted): a room with five units of which the
    [availableRooms] field advertises one, and one overlapping [CONFIRMED]
    booking: the check reports no unit available, where
    [max(0, totalRooms - bookedCount)] is four. *)
Lemma available_count_not_from_totalRooms :
  let db := sampleDb (sampleRoom 5 1)
              [stay "b1" (jan2024 10) (jan2024 15) CONFIRMED] in
  ∃ av, checkAvailability db "r1" (Some (jan2024 11)) (Some (jan2024 13)) = Ok av
    ∧ Availability.bookedRooms av = 1
    ∧ Availability.totalRooms av = 5
    ∧ Availability.availableRooms av = 0
    ∧ Availability.isAvailable av = false
    ∧ Availability.availableRooms av
        ≠ Z.max 0 (Availability.totalRooms av - Availability.bookedRooms av).
Proof.
  eexists. split; [vm_compute; reflexivity|].
  repeat split; vm_compute; discriminate.
Qed.

(** C2 (amended): for an existing room and a range [c < d], the check
    succeeds; [bookedRooms] is the number of stored [PENDING] or [CONFIRMED]
    bookings of the room that the overlap query selects; the available
    count is [max(0, room.availableRooms - bookedRooms)], computed from the
    room's [availableRooms] field and not from [totalRooms], which is only
    echoed; and [isAvailable] holds exactly when
    [room.availableRooms - bookedRooms > 0], that is when the available
    count is positive. *)
Theorem availability_from_availableRooms (db : Db) (id : string)
    (room : Room.t) (c d : Z) :
  rooms db !! id = Some room →
  c < d →
  ∃ av, checkAvailability db id (Some c) (Some d) = Ok av
    ∧ Availability.bookedRooms av
        = Z.of_nat (countWhere (conflictWhere id c d) db)
    ∧ Availability.availableRooms av
        = Z.max 0 (Room.availableRooms room - Availability.bookedRooms av)
    ∧ Availability.isAvailable av
        = (Room.availableRooms room - Availability.bookedRooms av >? 0)
    ∧ (Availability.isAvailable av = true ↔ Availability.availableRooms av > 0)
    ∧ Availability.totalRooms av = Room.totalRooms room.
Proof.
  intros Hroom Hcd. eexists.
  split; [exact (checkAvailability_valid db id room c d Hroom Hcd)|]. cbn.
  repeat split; try reflexivity.
  - rewrite Z.gtb_ltb, Z.ltb_lt. lia.
  - rewrite Z.gtb_ltb, Z.ltb_lt. lia.
Qed.

Lemma availability_from_availableRooms_witness :
  let db := sampleDb (sampleRoom 5 1)
              [stay "b1" (jan2024 10) (jan2024 15) CONFIRMED] in
  ∃ av, checkAvailability db "r1" (Some (jan2024 11)) (Some (jan2024 13)) = Ok av
    ∧ Availability.bookedRooms av
        = Z.of_nat (countWhere (conflictWhere "r1" (jan2024 11) (jan2024 13)) db)
    ∧ Availability.availableRooms av
        = Z.max 0 (Room.availableRooms (sampleRoom 5 1) - Availability.bookedRooms av)
    ∧ Availability.isAvailable av
        = (Room.availableRooms (sampleRoom 5 1) - Availability.bookedRooms av >? 0)
    ∧ (Availability.isAvailable av = true ↔ Availability.availableRooms av > 0)
    ∧ Availability.totalRooms av = Room.totalRooms (sampleRoom 5 1).
Proof.
  intros db.
  apply (availability_from_availableRooms db "r1" (sampleRoom 5 1)
           (jan2024 11) (jan2024 13)).
  - reflexivity.
  - vm_compute. reflexivity.
Defined.

(** ** Booking creation against the availability check *)

Lemma validateBooking_nil (c : Clock) (body : BookingBody.t) :
  validateBooking c body = []
  ↔ BookingBody.roomId body ≠ ""%string
    ∧ today c <= BookingBody.checkinDate body
    ∧ BookingBody.checkinDate body < BookingBody.checkoutDate body
    ∧ 1 <= BookingBody.guests body <= 10.
Proof.
  unfold validateBooking.
  destruct (String.eqb_spec (BookingBody.roomId body) "") as [Hr|Hr];
  destruct (Z.ltb_spec (BookingBody.checkinDate body) (today c));
  destruct (Z.leb_spec (BookingBody.checkoutDate body) (BookingBody.checkinDate body));
  destruct (Z.leb_spec 1 (BookingBody.guests body));
  destruct (Z.leb_spec (BookingBody.guests body) 10);
  simpl; split; try discriminate; try (intros; split_and?; done || lia);
  intros (? & ? & ? & ?); try done; lia.
Qed.

(** What the handler does with a request that passed validation. *)
Lemma createBooking_valid (c : Clock) (db : Db) (user : User.t)
    (body : BookingBody.t) (newId : string) (room : Room.t) :
  validateBooking c body = [] →
  rooms db !! BookingBody.roomId body = Some room →
  let checkin := BookingBody.checkinDate body in
  let checkout := BookingBody.checkoutDate body in
  let bookedRooms :=
    Z.of_nat (countWhere (conflictWhere (BookingBody.roomId body) checkin checkout) db) in
  let booking :=
    Booking.mk newId (User.id user) (BookingBody.roomId body) checkin checkout
      (times (Room.price room) (inject_Z (ceilDiv (checkout - checkin) msPerDay)))
      (BookingBody.guests body) PENDING in
  createBooking c db user body newId =
    if Room.availableRooms room - bookedRooms <=? 0 then (db, Err RoomNotAvailable)
    else match bookings db !! newId with
         | Some _ => (db, Err InternalServerError)
         | None => (mkDb (rooms db) (<[newId := booking]> (bookings db)), Ok booking)
         end.
Proof.
  intros Hv Hroom. unfold createBooking. rewrite Hv, Hroom. cbn zeta.
  unfold conflictingBookings. by rewrite length_findMany.
Qed.

(** C3 (as stated, refuted): for an existing room, a range with check-out
    after check-in and two guests, the availability check reports
    [isAvailable = false], but the request, whose check-in lies before
    today's midnight, fails validation instead of failing with
    [RoomNotAvailable]. *)
Lemma unavailable_iff_checker_refuted :
  let db := sampleDb (sampleRoom 1 1)
              [stay "b1" (jan2024 10) (jan2024 15) CONFIRMED] in
  let clock := mkClock (jan2024 20) 0 in
  let body := BookingBody.mk "r1" (jan2024 11) (jan2024 13) 2 in
  is_Some (rooms db !! BookingBody.roomId body)
  ∧ BookingBody.checkinDate body < BookingBody.checkoutDate body
  ∧ 1 <= BookingBody.guests body <= 10
  ∧ ¬ ((createBooking clock db stranger body "b2").2 = Err RoomNotAvailable
       ↔ ∃ av, checkAvailability db (BookingBody.roomId body)
                 (Some (BookingBody.checkinDate body))
                 (Some (BookingBody.checkoutDate body)) = Ok av
               ∧ Availability.isAvailable av = false).
Proof.
  intros db clock body. split_and!.
  - eexists. reflexivity.
  - vm_compute. reflexivity.
  - vm_compute. discriminate.
  - vm_compute. discriminate.
  - intros [_ H].
    assert (Hc : (createBooking clock db stranger body "b2").2
                 = Err (ValidationError ["Check-in date cannot be in the past"%string]))
      by (vm_compute; reflexivity).
    rewrite Hc in H. discriminate H.
    eexists. split; vm_compute; reflexivity.
Qed.

(** C3 (amended): for an existing room and a request that passes
    validation (a room identifier, a check-in not before today's midnight,
    a check-out after the check-in, one to ten guests), booking creation
    fails with [RoomNotAvailable] exactly when the availability check of
    the same room, range and database reports [isAvailable = false]. *)
Theorem unavailable_iff_checker (c : Clock) (db : Db) (user : User.t)
    (body : BookingBody.t) (newId : string) :
  is_Some (rooms db !! BookingBody.roomId body) →
  BookingBody.roomId body ≠ ""%string →
  today c <= BookingBody.checkinDate body →
  BookingBody.checkinDate body < BookingBody.checkoutDate body →
  1 <= BookingBody.guests body <= 10 →
  (createBooking c db user body newId).2 = Err RoomNotAvailable
  ↔ ∃ av, checkAvailability db (BookingBody.roomId body)
            (Some (BookingBody.checkinDate body))
            (Some (BookingBody.checkoutDate body)) = Ok av
          ∧ Availability.isAvailable av = false.
Proof.
  intros [room Hroom] Hid Hpast Hrange Hguests.
  assert (Hv : validateBooking c body = []) by (apply validateBooking_nil; auto).
  rewrite (createBooking_valid c db user body newId room Hv Hroom).
  rewrite (checkAvailability_valid db _ room _ _ Hroom Hrange).
  set (n := Room.availableRooms room - _).
  destruct (Z.leb_spec n 0) as [Hn|Hn].
  - split; [intros _|done]. eexists. split; [reflexivity|]. cbn.
    rewrite Z.gtb_ltb. apply Z.ltb_ge. lia.
  - split.
    + destruct (bookings db !! newId); discriminate.
    + intros (av & Hav & Hfalse). injection Hav as <-. cbn in Hfalse.
      rewrite Z.gtb_ltb in Hfalse. apply Z.ltb_ge in Hfalse. lia.
Qed.

Lemma unavailable_iff_checker_witness :
  let db := sampleDb (sampleRoom 1 1)
              [stay "b1" (jan2024 10) (jan2024 15) CONFIRMED] in
  let body := BookingBody.mk "r1" (jan2024 11) (jan2024 13) 2 in
  (createBooking newYearNoon db stranger body "b2").2 = Err RoomNotAvailable
  ↔ ∃ av, checkAvailability db "r1" (Some (jan2024 11)) (Some (jan2024 13)) = Ok av
          ∧ Availability.isAvailable av = false.
Proof.
  intros db body.
  apply (unavailable_iff_checker newYearNoon db stranger body "b2").
  - eexists. reflexivity.
  - discriminate.
  - vm_compute. discriminate.
  - vm_compute. reflexivity.
  - vm_compute. split; discriminate.
Defined.

Lemma countWhere_pos (cond : Booking.t -> bool) (db : Db) (k : string)
    (b : Booking.t) :
  bookings db !! k = Some b → cond b = true → (0 < countWhere cond db)%nat.
Proof.
  intros Hk Hc. unfold countWhere.
  destruct (size _) eqn:Hsz; [|lia].
  apply map_size_empty_inv in Hsz.
  assert (Hin : filter (fun kv : string * Booking.t => cond kv.2 = true)
                  (bookings db) !! k = Some b)
    by (by apply map_lookup_filter_Some).
  rewrite Hsz, lookup_empty in Hin. discriminate Hin.
Qed.

(** C4 (as stated, refuted): a room with [totalRooms = 1] whose
    [availableRooms] field is 2, and one [CONFIRMED] booking that covers the
    whole requested range: the new booking is created. *)
Lemma single_unit_taken_still_booked :
  let taken := stay "b1" (jan2024 10) (jan2024 15) CONFIRMED in
  let db := sampleDb (sampleRoom 1 2) [taken] in
  let body := BookingBody.mk "r1" (jan2024 11) (jan2024 13) 2 in
  (Room.totalRooms <$> rooms db !! "r1"%string) = Some 1
  ∧ bookings db !! "b1"%string = Some taken
  ∧ Booking.checkinDate taken <= BookingBody.checkinDate body
  ∧ BookingBody.checkoutDate body <= Booking.checkoutDate taken
  ∧ ∃ bk, (createBooking newYearNoon db stranger body "b2").2 = Ok bk.
Proof.
  intros taken db body. split_and!.
  - reflexivity.
  - reflexivity.
  - vm_compute. discriminate.
  - vm_compute. discriminate.
  - eexists. vm_compute. reflexivity.
Qed.

(** C4 (amended): for a room with [totalRooms = 1] whose [availableRooms]
    field does not exceed [totalRooms], if a stored [CONFIRMED] booking of
    the room covers the whole requested range, a request that passes
    validation fails with [RoomNotAvailable] and leaves the database as it
    was. *)
Theorem single_unit_taken_unavailable (c : Clock) (db : Db) (user : User.t)
    (body : BookingBody.t) (newId : string) (room : Room.t) (k : string)
    (taken : Booking.t) :
  rooms db !! BookingBody.roomId body = Some room →
  Room.totalRooms room = 1 →
  Room.availableRooms room <= Room.totalRooms room →
  bookings db !! k = Some taken →
  Booking.roomId taken = BookingBody.roomId body →
  Booking.status taken = CONFIRMED →
  Booking.checkinDate taken <= BookingBody.checkinDate body →
  BookingBody.checkoutDate body <= Booking.checkoutDate taken →
  validateBooking c body = [] →
  createBooking c db user body newId = (db, Err RoomNotAvailable).
Proof.
  intros Hroom Htot Hav Hk Hrid Hst Hin Hout Hv.
  rewrite (createBooking_valid c db user body newId room Hv Hroom).
  apply validateBooking_nil in Hv as (_ & _ & Hrange & _).
  assert (Hc : conflictWhere (BookingBody.roomId body)
                 (BookingBody.checkinDate body) (BookingBody.checkoutDate body)
                 taken = true).
  { apply conflictWhere_true. split_and!; [done|by rewrite Hst|].
    apply overlapWhere_closed; lia. }
  pose proof (countWhere_pos _ db k taken Hk Hc) as Hpos.
  destruct (Z.leb_spec (Room.availableRooms room - Z.of_nat (countWhere
    (conflictWhere (BookingBody.roomId body) (BookingBody.checkinDate body)
       (BookingBody.checkoutDate body)) db)) 0); [reflexivity|lia].
Qed.

Lemma single_unit_taken_unavailable_witness :
  let taken := stay "b1" (jan2024 10) (jan2024 15) CONFIRMED in
  let db := sampleDb (sampleRoom 1 1) [taken] in
  let body := BookingBody.mk "r1" (jan2024 11) (jan2024 13) 2 in
  createBooking newYearNoon db stranger body "b2" = (db, Err RoomNotAvailable).
Proof.
  intros taken db body.
  apply (single_unit_taken_unavailable newYearNoon db stranger body "b2"
           (sampleRoom 1 1) "b1" taken).
  - reflexivity.
  - reflexivity.
  - vm_compute. discriminate.
  - reflexivity.
  - reflexivity.
  - reflexivity.
  - vm_compute. discriminate.
  - vm_compute. discriminate.
  - vm_compute. reflexivity.
Defined.

(** ** Price and status of a created booking *)

(** ** Rounding of numbers *)

Lemma pow2_pos (e : Z) : (0 < pow2 e)%Q.
Proof. apply Qpower_0_lt. reflexivity. Qed.

Lemma pow2_add (a b : Z) : (pow2 (a + b) == pow2 a * pow2 b)%Q.
Proof. apply Qpower_plus. discriminate. Qed.

Lemma pow2_le (a b : Z) : a <= b → (pow2 a <= pow2 b)%Q.
Proof. intros H. apply Qpower_le_compat_l; [exact H|discriminate]. Qed.

Lemma pow2_lt (a b : Z) : a < b → (pow2 a < pow2 b)%Q.
Proof. intros H. apply Qpower_lt_compat_l; [exact H|reflexivity]. Qed.

Lemma pow2_lt_inv (a b : Z) : (pow2 a < pow2 b)%Q → a < b.
Proof. intros H. apply (Qpower_lt_compat_l_inv 2); [exact H|reflexivity]. Qed.

Lemma pow2_inject (a : Z) : 0 <= a → (pow2 a == inject_Z (2 ^ a))%Q.
Proof. intros H. unfold pow2. by rewrite (Zpower_Qpower 2 a H). Qed.

(** [ilog2 q] is the integer part of the binary logarithm. *)
Lemma ilog2_spec (q : Q) :
  (0 < q)%Q → (pow2 (ilog2 q) <= q)%Q ∧ (q < pow2 (ilog2 q + 1))%Q.
Proof.
  intros Hq. destruct q as [n d]. unfold ilog2. cbn [Qnum Qden].
  assert (Hn : 0 < n) by (unfold Qlt in Hq; cbn in Hq; lia).
  pose proof (Z.log2_spec n Hn) as [Hn1 Hn2].
  pose proof (Z.log2_spec (Zpos d) (Pos2Z.is_pos d)) as [Hd1 Hd2].
  pose proof (Z.log2_nonneg n) as Ha.
  pose proof (Z.log2_nonneg (Zpos d)) as Hb.
  set (a := Z.log2 n) in *. set (b := Z.log2 (Zpos d)) in *.
  assert (Hqd : (n # d == inject_Z n / inject_Z (Zpos d))%Q) by apply Qmake_Qdiv.
  assert (Hdpos : (0 < inject_Z (Zpos d))%Q) by reflexivity.
  assert (Hlow : (pow2 (a - b - 1) < n # d)%Q).
  { rewrite Hqd. apply Qlt_shift_div_l; [exact Hdpos|].
    apply Qlt_le_trans with (pow2 (a - b - 1) * pow2 (b + 1))%Q.
    - apply Qmult_lt_l; [apply pow2_pos|].
      rewrite (pow2_inject (b + 1)) by lia. rewrite <- Zlt_Qlt.
      by rewrite Z.add_1_r.
    - rewrite <- pow2_add. replace (a - b - 1 + (b + 1)) with a by lia.
      rewrite (pow2_inject a) by lia. by rewrite <- Zle_Qle. }
  assert (Hup : (n # d < pow2 (a - b + 1))%Q).
  { rewrite Hqd. apply Qlt_shift_div_r; [exact Hdpos|].
    apply Qlt_le_trans with (pow2 (a + 1)).
    - rewrite (pow2_inject (a + 1)) by lia. rewrite <- Zlt_Qlt.
      by rewrite Z.add_1_r.
    - replace (a + 1) with (a - b + 1 + b) by lia. rewrite pow2_add.
      apply Qmult_le_l; [apply pow2_pos|].
      rewrite (pow2_inject b) by lia. by rewrite <- Zle_Qle. }
  destruct (Qle_bool (pow2 (a - b)) (n # d)) eqn:Hk.
  - apply Qle_bool_iff in Hk. split; [exact Hk|exact Hup].
  - split; [apply Qlt_le_weak; exact Hlow|].
    replace (a - b - 1 + 1) with (a - b) by lia.
    apply Qnot_le_lt. intros Hle. apply Qle_bool_iff in Hle. congruence.
Qed.

Lemma ilog2_mono (x y : Q) :
  (0 < x)%Q → (x <= y)%Q → ilog2 x <= ilog2 y.
Proof.
  intros Hx Hxy.
  destruct (ilog2_spec x Hx) as [Hx1 _].
  destruct (ilog2_spec y (Qlt_le_trans _ _ _ Hx Hxy)) as [_ Hy2].
  assert (H : (pow2 (ilog2 x) < pow2 (ilog2 y + 1))%Q).
  { eapply Qle_lt_trans; [exact Hx1|]. eapply Qle_lt_trans; [exact Hxy|exact Hy2]. }
  apply pow2_lt_inv in H. lia.
Qed.

Lemma roundHalfEven_bounds (q : Q) :
  Qfloor q <= roundHalfEven q <= Qfloor q + 1.
Proof.
  unfold roundHalfEven.
  destruct (Qcompare (q - inject_Z (Qfloor q)) (1 # 2)); [|lia|lia].
  destruct (Z.even (Qfloor q)); lia.
Qed.

Lemma roundHalfEven_mono (x y : Q) :
  (x <= y)%Q → roundHalfEven x <= roundHalfEven y.
Proof.
  intros Hxy. pose proof (Qfloor_resp_le x y Hxy) as Hf.
  pose proof (roundHalfEven_bounds x) as Hx.
  pose proof (roundHalfEven_bounds y) as Hy.
  destruct (Z.eq_dec (Qfloor x) (Qfloor y)) as [Heq|Hne]; [|lia].
  unfold roundHalfEven. rewrite Heq.
  set (f := inject_Z (Qfloor y)).
  destruct (Qcompare_spec (x - f) (1 # 2)) as [He|Hl|Hg];
    destruct (Qcompare_spec (y - f) (1 # 2)) as [He'|Hl'|Hg'];
    try destruct (Z.even (Qfloor y)); try lia; exfalso; lra.
Qed.

Lemma roundHalfEven_Z (n : Z) : roundHalfEven (inject_Z n) = n.
Proof.
  unfold roundHalfEven. rewrite Qfloor_Z. set (f := inject_Z n).
  destruct (Qcompare_spec (f - f) (1 # 2)) as [He|Hl|Hg];
    [exfalso; lra | reflexivity | exfalso; lra].
Qed.

Lemma roundHalfEven_ge (n : Z) (q : Q) :
  (inject_Z n <= q)%Q → n <= roundHalfEven q.
Proof.
  intros H. rewrite <- (roundHalfEven_Z n). by apply roundHalfEven_mono.
Qed.

Lemma roundHalfEven_le (n : Z) (q : Q) :
  (q <= inject_Z n)%Q → roundHalfEven q <= n.
Proof.
  intros H. rewrite <- (roundHalfEven_Z n). by apply roundHalfEven_mono.
Qed.

Lemma roundPositive_mono (x y : Q) :
  (0 < x)%Q → (x <= y)%Q → (roundPositive x <= roundPositive y)%Q.
Proof.
  intros Hx Hxy. assert (Hy : (0 < y)%Q) by (eapply Qlt_le_trans; eauto).
  unfold roundPositive. rewrite !Qred_correct.
  pose proof (ilog2_mono x y Hx Hxy) as Hlog.
  destruct (ilog2_spec x Hx) as [_ Hxu].
  destruct (ilog2_spec y Hy) as [Hyl _].
  set (ex := Z.max (-1074) (ilog2 x - 52)).
  set (ey := Z.max (-1074) (ilog2 y - 52)).
  assert (Hexy : ex <= ey) by lia.
  pose proof (pow2_pos ex) as Hpx. pose proof (pow2_pos ey) as Hpy.
  destruct (Z.eq_dec ex ey) as [Heq|Hne].
  - rewrite <- Heq. apply Qmult_le_compat_r; [|by apply Qlt_le_weak].
    rewrite <- Zle_Qle. apply roundHalfEven_mono.
    apply Qmult_le_compat_r; [exact Hxy|].
    apply Qlt_le_weak, Qinv_lt_0_compat, Hpx.
  - assert (Hlt : ex < ey) by lia.
    assert (Hey : ey = ilog2 y - 52) by lia.
    apply Qle_trans with (pow2 (ex + 53)).
    + rewrite Z.add_comm, pow2_add.
      apply Qmult_le_compat_r; [|by apply Qlt_le_weak].
      rewrite (pow2_inject 53) by lia. rewrite <- Zle_Qle.
      apply roundHalfEven_le. rewrite <- (pow2_inject 53) by lia.
      apply Qle_shift_div_r; [exact Hpx|]. rewrite <- pow2_add.
      apply Qlt_le_weak. eapply Qlt_le_trans; [exact Hxu|].
      apply pow2_le. lia.
    + apply Qle_trans with (pow2 (52 + ey)); [apply pow2_le; lia|].
      rewrite pow2_add.
      apply Qmult_le_compat_r; [|by apply Qlt_le_weak].
      rewrite (pow2_inject 52) by lia. rewrite <- Zle_Qle.
      apply roundHalfEven_ge. rewrite <- (pow2_inject 52) by lia.
      apply Qle_shift_div_l; [exact Hpy|]. rewrite <- pow2_add.
      eapply Qle_trans; [|exact Hyl]. apply pow2_le. lia.
Qed.






Lemma binary64_fixes (q : Q) : isNumber q = true → (binary64 q == q)%Q.
Proof.
  unfold isNumber. intros H. apply andb_true_iff in H as [H _].
  by apply Qeq_bool_iff.
Qed.


Lemma times_ge (p : Q) (n : Z) :
  (0 <= p)%Q → 1 <= n → (p <= times p (inject_Z n))%Q.
Proof.
  intros Hp Hn.
  assert (Hexact : (p <= p * inject_Z n)%Q).
  { assert ((1 <= inject_Z n)%Q) by (by rewrite (Zle_Qle 1 n) in Hn). nra. }
  unfold times.
  destruct (isNumber p) eqn:Hnum; cbn [andb]; [|exact Hexact].
  destruct (isNumber (inject_Z n) && _); [|exact Hexact].
  pose proof (binary64_fixes p Hnum) as Hfix.
  unfold binary64 in *.
  destruct (Qcompare_spec p 0) as [He|Hl|Hg];
    destruct (Qcompare_spec (p * inject_Z n) 0) as [He'|Hl'|Hg'];
    try lra; try (exfalso; nra).
  rewrite <- Hfix at 1. by apply roundPositive_mono.
Qed.

(** The product of the model against the multiplication of primitive
    binary64 floats, on a decimal fraction, a price with cents, a tie, a
    subnormal result and exact integers. *)
Module NumberChecks.
Import PrimFloat.

Example tenth_times_three :
  numberOfFloat (0x1.999999999999ap-4 * 3)%float
  = timesOfFloats 0x1.999999999999ap-4%float 3%float
  ∧ timesOfFloats 0x1.999999999999ap-4%float 3%float
    = Some (1351079888211149 # 4503599627370496)%Q.
Proof. split; vm_compute; reflexivity. Qed.

Example cents_times_seven :
  numberOfFloat (0x1.f3ff5c28f5c29p+10 * 7)%float
  = timesOfFloats 0x1.f3ff5c28f5c29p+10%float 7%float.
Proof. vm_compute. reflexivity. Qed.

Example tie_to_even :
  numberOfFloat (4503599627370497 * 0x1.8p+0)%float
  = timesOfFloats 4503599627370497%float 0x1.8p+0%float
  ∧ timesOfFloats 4503599627370497%float 0x1.8p+0%float
    = Some (6755399441055746 # 1)%Q.
Proof. split; vm_compute; reflexivity. Qed.

Example subnormal_product :
  numberOfFloat (0x0.00000000007e8p-1022 * 0x1.3333333333333p-2)%float
  = timesOfFloats 0x0.00000000007e8p-1022%float 0x1.3333333333333p-2%float.
Proof. vm_compute. reflexivity. Qed.

Example integer_product :
  numberOfFloat (2000 * 3)%float = timesOfFloats 2000%float 3%float
  ∧ timesOfFloats 2000%float 3%float = Some (6000 # 1)%Q.
Proof. split; vm_compute; reflexivity. Qed.

End NumberChecks.


Lemma ceilDiv_spec (x d : Z) :
  0 < d → (ceilDiv x d - 1) * d < x <= ceilDiv x d * d.
Proof.
  intros Hd. unfold ceilDiv.
  pose proof (Z.div_mod (- x) d ltac:(lia)).
  pose proof (Z.mod_pos_bound (- x) d Hd). nia.
Qed.



(** ** Rejected requests *)

Lemma createBooking_invalid (c : Clock) (db : Db) (user : User.t)
    (body : BookingBody.t) (newId : string) (msg : string) :
  msg ∈ validateBooking c body →
  createBooking c db user body newId
  = (db, Err (ValidationError (validateBooking c body))).
Proof.
  intros Hin. unfold createBooking.
  destruct (validateBooking c body); [|reflexivity].
  by apply not_elem_of_nil in Hin.
Qed.

(** [today] is the local midnight at or before [now]. *)
Lemma today_spec (c : Clock) :
  (today c + tzOffset c) mod msPerDay = 0
  ∧ today c <= now c < today c + msPerDay.
Proof.
  unfold today.
  pose proof (Z.mod_pos_bound (now c + tzOffset c) msPerDay ltac:(reflexivity)).
  split; [|lia].
  replace (now c - (now c + tzOffset c) mod msPerDay + tzOffset c)
    with ((now c + tzOffset c) - (now c + tzOffset c) mod msPerDay) by lia.
  rewrite Zminus_mod_idemp_r, Z.sub_diag. reflexivity.
Qed.

(** C6: when the check-out is not after the check-in, the availability
    check answers [Invalid Dates] and booking creation answers
    [Validation Error] with the check-out message among its details, both
    in the class [InvalidRange]; booking creation leaves the database as it
    was, and the availability check never writes. *)
Theorem reversed_range_rejected (c : Clock) (db : Db) (user : User.t)
    (body : BookingBody.t) (newId : string) (id : string) :
  BookingBody.checkoutDate body <= BookingBody.checkinDate body →
  (checkAvailability db id (Some (BookingBody.checkinDate body))
     (Some (BookingBody.checkoutDate body)) = Err InvalidDates
   ∧ errorClass InvalidDates = InvalidRange)
  ∧ ∃ details,
      createBooking c db user body newId = (db, Err (ValidationError details))
      ∧ "Check-out date must be after check-in date"%string ∈ details
      ∧ errorClass (ValidationError details) = InvalidRange.
Proof.
  intros Hrev. split.
  - split; [|reflexivity]. unfold checkAvailability.
    assert ((BookingBody.checkinDate body >=? BookingBody.checkoutDate body) = true)
      as -> by (rewrite Z.geb_leb; apply Z.leb_le; lia).
    reflexivity.
  - assert (Hin : "Check-out date must be after check-in date"%string
                  ∈ validateBooking c body).
    { unfold validateBooking.
      assert ((BookingBody.checkoutDate body <=? BookingBody.checkinDate body) = true)
        as -> by (apply Z.leb_le; lia).
      rewrite !elem_of_app. right. right. left. apply list_elem_of_here. }
    exists (validateBooking c body). split_and!; [|exact Hin|reflexivity].
    exact (createBooking_invalid c db user body newId _ Hin).
Qed.

Lemma reversed_range_rejected_witness :
  let db := sampleDb (sampleRoom 1 1) [] in
  let body := BookingBody.mk "r1" (jan2024 12) (jan2024 12) 2 in
  (checkAvailability db "r1" (Some (jan2024 12)) (Some (jan2024 12)) = Err InvalidDates
   ∧ errorClass InvalidDates = InvalidRange)
  ∧ ∃ details,
      createBooking newYearNoon db guest body "b1" = (db, Err (ValidationError details))
      ∧ "Check-out date must be after check-in date"%string ∈ details
      ∧ errorClass (ValidationError details) = InvalidRange.
Proof.
  intros db body.
  apply (reversed_range_rejected newYearNoon db guest body "b1" "r1").
  vm_compute. discriminate.
Defined.

(** C9: a request whose check-in lies before today's local midnight is
    answered [Validation Error], with the check-in message among the
    details, and the database stays as it was. *)
Theorem past_checkin_rejected (c : Clock) (db : Db) (user : User.t)
    (body : BookingBody.t) (newId : string) :
  BookingBody.checkinDate body < today c →
  ∃ details,
    createBooking c db user body newId = (db, Err (ValidationError details))
    ∧ "Check-in date cannot be in the past"%string ∈ details
    ∧ httpStatus (ValidationError details) = 400.
Proof.
  intros Hpast.
  assert (Hin : "Check-in date cannot be in the past"%string
                ∈ validateBooking c body).
  { unfold validateBooking.
    assert ((BookingBody.checkinDate body <? today c) = true)
      as -> by (apply Z.ltb_lt; lia).
    rewrite !elem_of_app. right. left. apply list_elem_of_here. }
  exists (validateBooking c body). split_and!; [|exact Hin|reflexivity].
  exact (createBooking_invalid c db user body newId _ Hin).
Qed.

(** At noon UTC of 1 January in a UTC+5:30 zone, today's midnight is
    18:30 UTC of 31 December; a check-in one minute earlier is refused. *)
Lemma past_checkin_rejected_witness :
  let db := sampleDb (sampleRoom 1 1) [] in
  let body := BookingBody.mk "r1" (jan2024 1 - 19800000 - 60000) (jan2024 3) 2 in
  ∃ details,
    createBooking newYearNoon db guest body "b1" = (db, Err (ValidationError details))
    ∧ "Check-in date cannot be in the past"%string ∈ details
    ∧ httpStatus (ValidationError details) = 400.
Proof.
  intros db body.
  apply (past_checkin_rejected newYearNoon db guest body "b1").
  vm_compute. reflexivity.
Defined.

(** ** Cancellation *)

(** C7: cancelling a stored booking. An actor who is neither an
    administrator nor the owner gets [Access Denied] (403, the class
    [Forbidden]); an authorised actor gets [Already Cancelled] for a
    [CANCELLED] booking, [Cannot Cancel] for a [COMPLETED] one, and
    otherwise the booking is stored with status [CANCELLED], nothing else
    changing. Every failure leaves the database as it was. *)
Theorem cancelBooking_rules (db : Db) (user : User.t) (id : string)
    (bk : Booking.t) :
  bookings db !! id = Some bk →
  let authorised := User.role user = "ADMIN"%string ∨ Booking.userId bk = User.id user in
  (¬ authorised →
     cancelBooking db user id = (db, Err AccessDenied)
     ∧ errorClass AccessDenied = Forbidden)
  ∧ (authorised → Booking.status bk = CANCELLED →
     cancelBooking db user id = (db, Err AlreadyCancelled))
  ∧ (authorised → Booking.status bk = COMPLETED →
     cancelBooking db user id = (db, Err CannotCancel))
  ∧ (authorised → Booking.status bk = PENDING ∨ Booking.status bk = CONFIRMED →
     let cancelled := Booking.withStatus CANCELLED bk in
     let db' := mkDb (rooms db) (<[id := cancelled]> (bookings db)) in
     cancelBooking db user id = (db', Ok cancelled)
     ∧ statusOf db' id = Some CANCELLED
     ∧ ∀ other, other ≠ id → bookings db' !! other = bookings db !! other).
Proof.
  intros Hbk authorised. subst authorised. unfold cancelBooking. rewrite Hbk.
  destruct (String.eqb_spec (User.role user) "ADMIN") as [Hrole|Hrole];
    destruct (String.eqb_spec (Booking.userId bk) (User.id user)) as [Hown|Hown];
    cbn [negb andb].
  all: split_and!.
  all: try (intros Hn; exfalso; apply Hn; auto; fail).
  all: try (intros [?|?]; done).
  all: try (intros _ ->; reflexivity).
  all: try (intros _; split; reflexivity).
  all: intros _ [Hst|Hst]; rewrite Hst; cbn; split_and!; try reflexivity.
  all: try (unfold statusOf; cbn; by rewrite lookup_insert_eq).
  all: intros other Hne; by rewrite lookup_insert_ne.
Qed.

(** The specification's scenario: the owner cancels a [PENDING] booking,
    and a second attempt is answered [Already Cancelled]. *)
Lemma cancelBooking_rules_witness :
  let b := stay "b1" (jan2024 10) (jan2024 15) PENDING in
  let db := sampleDb (sampleRoom 1 1) [b] in
  let db' := (cancelBooking db guest "b1").1 in
  statusOf db' "b1" = Some CANCELLED
  ∧ cancelBooking db' guest "b1" = (db', Err AlreadyCancelled)
  ∧ cancelBooking db stranger "b1" = (db, Err AccessDenied).
Proof.
  intros b db db'.
  destruct (cancelBooking_rules db guest "b1" b eq_refl) as (_ & _ & _ & Hok).
  destruct (Hok (or_intror eq_refl) (or_introl eq_refl)) as (Hc & Hst & _).
  destruct (cancelBooking_rules db' guest "b1" (Booking.withStatus CANCELLED b) eq_refl)
    as (_ & Hagain & _).
  destruct (cancelBooking_rules db stranger "b1" b eq_refl) as (Hdenied & _).
  split_and!.
  - subst db'. rewrite Hc. exact Hst.
  - apply Hagain; [right|]; reflexivity.
  - apply Hdenied. intros [H|H]; discriminate H.
Defined.

(** C10: the checks of a cancellation come in the order existence,
    authorisation, status: an identifier that names no booking is answered
    [Booking Not Found] whoever asks, and an actor who is neither an
    administrator nor the owner of a stored booking is answered
    [Access Denied] whatever the booking's status, also when it is
    [CANCELLED] or [COMPLETED]. *)
Theorem cancelBooking_check_order (db : Db) (user : User.t) (id : string) :
  (bookings db !! id = None →
     cancelBooking db user id = (db, Err BookingNotFound)
     ∧ errorClass BookingNotFound = NotFound)
  ∧ (∀ bk, bookings db !! id = Some bk →
       User.role user ≠ "ADMIN"%string →
       Booking.userId bk ≠ User.id user →
       cancelBooking db user id = (db, Err AccessDenied)
       ∧ (cancelBooking db user id).2 ≠ Err AlreadyCancelled
       ∧ (cancelBooking db user id).2 ≠ Err CannotCancel).
Proof.
  unfold cancelBooking. split.
  - intros ->. by split.
  - intros bk -> Hrole Hown.
    apply String.eqb_neq in Hrole, Hown. rewrite Hrole, Hown. by cbn.
Qed.

Lemma cancelBooking_check_order_witness :
  let db := sampleDb (sampleRoom 1 1)
              [stay "b1" (jan2024 10) (jan2024 15) CANCELLED;
               stay "b2" (jan2024 16) (jan2024 18) COMPLETED] in
  cancelBooking db administrator "b9" = (db, Err BookingNotFound)
  ∧ cancelBooking db stranger "b9" = (db, Err BookingNotFound)
  ∧ cancelBooking db stranger "b1" = (db, Err AccessDenied)
  ∧ cancelBooking db stranger "b2" = (db, Err AccessDenied).
Proof.
  intros db. split_and!.
  - apply (cancelBooking_check_order db administrator "b9"). reflexivity.
  - apply (cancelBooking_check_order db stranger "b9"). reflexivity.
  - eapply (cancelBooking_check_order db stranger "b1");
      [reflexivity | discriminate | discriminate].
  - eapply (cancelBooking_check_order db stranger "b2");
      [reflexivity | discriminate | discriminate].
Defined.

(** ** Status transitions *)

Lemma createBooking_status (c : Clock) (db : Db) (user : User.t)
    (body : BookingBody.t) (newId id : string) (st : BookingStatus) :
  statusOf db id = Some st →
  statusOf (createBooking c db user body newId).1 id = Some st.
Proof.
  intros Hst. unfold createBooking.
  destruct (validateBooking c body); [|exact Hst].
  destruct (rooms db !! BookingBody.roomId body); [|exact Hst].
  cbn zeta. destruct (_ <=? 0); [exact Hst|].
  destruct (bookings db !! newId) eqn:Hnew; [exact Hst|].
  unfold statusOf in *. cbn.
  rewrite lookup_insert_ne; [exact Hst|].
  intros <-. rewrite Hnew in Hst. discriminate Hst.
Qed.

Lemma cancelBooking_status (db : Db) (user : User.t) (target id : string)
    (st : BookingStatus) :
  statusOf db id = Some st →
  statusOf (cancelBooking db user target).1 id = Some st
  ∨ (activeStatus st = true
     ∧ statusOf (cancelBooking db user target).1 id = Some CANCELLED).
Proof.
  intros Hst. unfold cancelBooking.
  destruct (bookings db !! target) as [bk|] eqn:Hbk; [|by left].
  destruct (_ && _); [by left|].
  destruct (Booking.status bk) eqn:Hs; cbn; try (by left).
  all: destruct (decide (target = id)) as [->|Hne];
    [|left; unfold statusOf in *; cbn; by rewrite lookup_insert_ne].
  all: right; unfold statusOf in *; cbn; rewrite lookup_insert_eq;
    rewrite Hbk in Hst; cbn in Hst; rewrite Hs in Hst;
    injection Hst as <-; by split.
Qed.

Lemma handle_status (db : Db) (r : Request) (id : string) (st : BookingStatus) :
  isAdminStatusUpdate r = false →
  statusOf db id = Some st →
  statusOf (handle db r) id = Some st
  ∨ (activeStatus st = true ∧ statusOf (handle db r) id = Some CANCELLED).
Proof.
  intros Hr Hst. destruct r as [| c user body newId | user target s | user target]; cbn.
  - by left.
  - left. by apply createBooking_status.
  - left. unfold updateBookingStatus. cbn in Hr. by rewrite Hr.
  - by apply cancelBooking_status.
Qed.

Lemma handleAll_status (rs : list Request) (db : Db) (id : string)
    (st : BookingStatus) :
  forallb (fun r => negb (isAdminStatusUpdate r)) rs = true →
  statusOf db id = Some st →
  statusOf (handleAll db rs) id = Some st
  ∨ (activeStatus st = true ∧ statusOf (handleAll db rs) id = Some CANCELLED).
Proof.
  revert db st. induction rs as [|r rs IH]; intros db st Hrs Hst; [by left|].
  cbn in Hrs. apply andb_true_iff in Hrs as [Hr Hrs].
  apply negb_true_iff in Hr. cbn.
  destruct (handle_status db r id st Hr Hst) as [H1|[Hact H1]].
  - exact (IH _ _ Hrs H1).
  - destruct (IH _ _ Hrs H1) as [H2|[Habs _]]; [by right|discriminate Habs].
Qed.

(** C8 (as stated, refuted): an administrator's status update takes a
    [CANCELLED] booking to [CONFIRMED], and a [COMPLETED] one back to
    [PENDING]. *)
Lemma terminal_status_left_by_admin_update :
  let db := sampleDb (sampleRoom 1 1)
              [stay "b1" (jan2024 10) (jan2024 15) CANCELLED;
               stay "b2" (jan2024 16) (jan2024 18) COMPLETED] in
  statusOf db "b1" = Some CANCELLED
  ∧ statusOf (handleAll db [PutBookingStatus administrator "b1" "CONFIRMED"]) "b1"
    = Some CONFIRMED
  ∧ statusOf db "b2" = Some COMPLETED
  ∧ statusOf (handleAll db [PutBookingStatus administrator "b2" "PENDING"]) "b2"
    = Some PENDING.
Proof.
  intros db. split_and!; vm_compute; reflexivity.
Qed.

(** C8 (amended): over any sequence of availability checks, booking
    creations, cancellations and status requests of non-administrators, a
    stored booking keeps its status or goes from [PENDING] or [CONFIRMED]
    to [CANCELLED]; in particular a [CANCELLED] or [COMPLETED] booking
    keeps its status. An administrator's status update is not restricted
    by the current status: it stores whichever of the four statuses the
    request names. *)
Theorem status_transitions_of_the_routes :
  (∀ (db : Db) (rs : list Request) (id : string) (st : BookingStatus),
     forallb (fun r => negb (isAdminStatusUpdate r)) rs = true →
     statusOf db id = Some st →
     (statusOf (handleAll db rs) id = Some st
      ∨ (activeStatus st = true ∧ statusOf (handleAll db rs) id = Some CANCELLED))
     ∧ (st = CANCELLED ∨ st = COMPLETED → statusOf (handleAll db rs) id = Some st))
  ∧ (∀ (db : Db) (user : User.t) (id status : string) (st target : BookingStatus),
       isAdmin user = true →
       statusOf db id = Some st →
       parseStatus status = Some target →
       statusOf (handle db (PutBookingStatus user id status)) id = Some target).
Proof.
  split.
  - intros db rs id st Hrs Hst.
    pose proof (handleAll_status rs db id st Hrs Hst) as H.
    split; [exact H|].
    intros Hterm. destruct H as [H|[Hact _]]; [exact H|].
    destruct Hterm as [-> | ->]; discriminate Hact.
  - intros db user id status st target Hadm Hst Hparse. cbn.
    unfold updateBookingStatus. rewrite Hadm, Hparse. cbn.
    unfold statusOf in Hst.
    destruct (bookings db !! id) as [bk|]; [|discriminate Hst].
    unfold statusOf. cbn. by rewrite lookup_insert_eq.
Qed.

Lemma status_transitions_of_the_routes_witness :
  let db := sampleDb (sampleRoom 1 1)
              [stay "b1" (jan2024 10) (jan2024 15) CANCELLED;
               stay "b2" (jan2024 16) (jan2024 18) COMPLETED] in
  let rs := [PutBookingCancel guest "b1";
             PutBookingStatus guest "b1" "CONFIRMED";
             PostBooking newYearNoon guest
               (BookingBody.mk "r1" (jan2024 20) (jan2024 22) 2) "b1";
             PutBookingCancel administrator "b2";
             GetAvailability "r1" (Some (jan2024 10)) (Some (jan2024 12))] in
  statusOf (handleAll db rs) "b1" = Some CANCELLED
  ∧ statusOf (handleAll db rs) "b2" = Some COMPLETED
  ∧ statusOf (handle db (PutBookingStatus administrator "b2" "CONFIRMED")) "b2"
    = Some CONFIRMED.
Proof.
  intros db rs.
  destruct status_transitions_of_the_routes as [Hkeep Hadmin].
  split_and!.
  - apply (Hkeep db rs "b1" CANCELLED); [reflexivity|reflexivity|by left].
  - apply (Hkeep db rs "b2" COMPLETED); [reflexivity|reflexivity|by right].
  - apply (Hadmin db administrator "b2" "CONFIRMED" COMPLETED CONFIRMED);
      reflexivity.
Defined.

(** * Further properties of the routes *)

(** ** Reading a booking *)

(** X1: reading a booking by identifier answers the stored row exactly when
    the row exists and the actor is an administrator or its owner; a
    missing row is [Booking Not Found] for every actor, and a row of
    someone else is [Access Denied] for a non-administrator. *)
Theorem getBooking_access (db : Db) (user : User.t) (id : string) :
  (∀ bk, getBooking db user id = Ok bk
         ↔ bookings db !! id = Some bk
           ∧ (User.role user = "ADMIN"%string ∨ Booking.userId bk = User.id user))
  ∧ (getBooking db user id = Err BookingNotFound ↔ bookings db !! id = None)
  ∧ (getBooking db user id = Err AccessDenied
     ↔ ∃ bk, bookings db !! id = Some bk
             ∧ User.role user ≠ "ADMIN"%string
             ∧ Booking.userId bk ≠ User.id user).
Proof.
  unfold getBooking.
  destruct (bookings db !! id) as [b|] eqn:Hb.
  - destruct (String.eqb_spec (User.role user) "ADMIN") as [Hr|Hr];
      destruct (String.eqb_spec (Booking.userId b) (User.id user)) as [Ho|Ho];
      cbn [negb andb]; split_and!; try intros bk; split;
      try discriminate; try (intros [= <-]; auto; fail);
      try (intros [[= <-] _]; reflexivity);
      try (intros (bk' & [= <-] & ? & ?); done).
    + intros [[= <-] [?|?]]; done.
    + intros _. exists b. done.
  - split_and!; try intros bk; split; try discriminate; try done.
    + intros [? _]. discriminate.
    + intros (bk' & ? & _). discriminate.
Qed.

(** X2: viewing and cancelling share one gate: a cancellation is answered
    [Booking Not Found] or [Access Denied] exactly when reading the same
    booking is, so whoever can read a booking gets a status-based answer
    to a cancellation, and nobody else does. *)
Theorem cancel_gate_is_view_gate (db : Db) (user : User.t) (id : string) :
  ((cancelBooking db user id).2 = Err BookingNotFound
   ↔ getBooking db user id = Err BookingNotFound)
  ∧ ((cancelBooking db user id).2 = Err AccessDenied
     ↔ getBooking db user id = Err AccessDenied)
  ∧ ((∃ bk, getBooking db user id = Ok bk)
     ↔ (∃ bk, (cancelBooking db user id).2 = Ok bk)
       ∨ (cancelBooking db user id).2 = Err AlreadyCancelled
       ∨ (cancelBooking db user id).2 = Err CannotCancel).
Proof.
  unfold cancelBooking, getBooking.
  destruct (bookings db !! id) as [b|].
  - destruct (_ && _).
    + split_and!; split; try discriminate; try done.
      * intros [? ?]. discriminate.
      * intros [[? ?]|[?|?]]; discriminate.
    + destruct (Booking.status b); cbn; split_and!; split; try discriminate;
        try (intros _; eauto; fail); try (intros _; exists b; reflexivity).
  - split_and!; split; try discriminate; try done.
    + intros [? ?]. discriminate.
    + intros [[? ?]|[?|?]]; discriminate.
Qed.

(** ** The administrative status update *)

(** X3: the checks of a status update come in the order role, status name,
    existence, and a refused update writes nothing: a non-administrator is
    answered [Access Denied] whatever the rest of the request; an
    administrator who names no valid status is answered [Invalid Status]
    also for a booking that does not exist; only then is a missing booking
    [Booking Not Found]. *)
Theorem updateBookingStatus_refusals (db : Db) (user : User.t)
    (id status : string) :
  (isAdmin user = false →
     updateBookingStatus db user id status = (db, Err AccessDenied))
  ∧ (isAdmin user = true → parseStatus status = None →
     updateBookingStatus db user id status = (db, Err InvalidStatus))
  ∧ (isAdmin user = true → is_Some (parseStatus status) →
     bookings db !! id = None →
     updateBookingStatus db user id status = (db, Err BookingNotFound))
  ∧ (∀ e, (updateBookingStatus db user id status).2 = Err e →
          (updateBookingStatus db user id status).1 = db).
Proof.
  unfold updateBookingStatus. split_and!.
  - intros ->. reflexivity.
  - intros -> ->. reflexivity.
  - intros -> [st ->] ->. reflexivity.
  - intros e. destruct (isAdmin user); cbn; [|done].
    destruct (parseStatus status); [|done].
    destruct (bookings db !! id); [discriminate|done].
Qed.

Lemma updateBookingStatus_refusals_witness :
  let db := sampleDb (sampleRoom 1 1)
              [stay "b1" (jan2024 10) (jan2024 15) PENDING] in
  updateBookingStatus db guest "b1" "CONFIRMED" = (db, Err AccessDenied)
  ∧ updateBookingStatus db administrator "b9" "confirmed" = (db, Err InvalidStatus)
  ∧ updateBookingStatus db administrator "b9" "CONFIRMED" = (db, Err BookingNotFound).
Proof.
  intros db. split_and!.
  - apply (updateBookingStatus_refusals db guest "b1" "CONFIRMED"). reflexivity.
  - apply (updateBookingStatus_refusals db administrator "b9" "confirmed");
      reflexivity.
  - apply (updateBookingStatus_refusals db administrator "b9" "CONFIRMED");
      [reflexivity | by eexists | reflexivity].
Defined.

(** X4: a successful status update changes the status of the one booking
    and nothing else: the answered row is the stored row with the new
    status and its other fields as they were, every other booking and
    every room stay as they were. *)
Theorem updateBookingStatus_frame (db db' : Db) (user : User.t)
    (id status : string) (bk : Booking.t) :
  updateBookingStatus db user id status = (db', Ok bk) →
  ∃ old st,
    bookings db !! id = Some old
    ∧ parseStatus status = Some st
    ∧ isAdmin user = true
    ∧ bk = Booking.withStatus st old
    ∧ Booking.status bk = st
    ∧ (Booking.userId bk, Booking.roomId bk, Booking.checkinDate bk,
       Booking.checkoutDate bk, Booking.totalPrice bk, Booking.guests bk)
      = (Booking.userId old, Booking.roomId old, Booking.checkinDate old,
         Booking.checkoutDate old, Booking.totalPrice old, Booking.guests old)
    ∧ bookings db' !! id = Some bk
    ∧ (∀ other, other ≠ id → bookings db' !! other = bookings db !! other)
    ∧ rooms db' = rooms db.
Proof.
  unfold updateBookingStatus.
  destruct (isAdmin user); cbn [negb]; [|discriminate].
  destruct (parseStatus status) as [st|]; [|discriminate].
  destruct (bookings db !! id) as [old|]; [|discriminate].
  intros [= <- <-]. exists old, st. cbn. split_and!; try reflexivity.
  - apply lookup_insert_eq.
  - intros other Hne. by rewrite lookup_insert_ne.
Qed.

Lemma updateBookingStatus_frame_witness :
  let b := stay "b1" (jan2024 10) (jan2024 15) PENDING in
  let db := sampleDb (sampleRoom 1 1) [b] in
  ∃ old st,
    bookings db !! "b1"%string = Some old
    ∧ parseStatus "CONFIRMED" = Some st
    ∧ Booking.status (Booking.withStatus st old) = CONFIRMED.
Proof.
  intros b db.
  destruct (updateBookingStatus_frame db
              (updateBookingStatus db administrator "b1" "CONFIRMED").1
              administrator "b1" "CONFIRMED" (Booking.withStatus CONFIRMED b)
              eq_refl)
    as (old & st & Hold & Hst & _ & Hbk & _).
  exists old, st. split_and!; [exact Hold | exact Hst |].
  rewrite <- Hbk. reflexivity.
Defined.

(** X5: status updates do not accumulate: after two successful updates of
    one booking the database is the one the second update alone would have
    produced. *)
Theorem updateBookingStatus_last_wins (db : Db) (user1 user2 : User.t)
    (id s1 s2 : string) (b1 : Booking.t) :
  (updateBookingStatus db user1 id s1).2 = Ok b1 →
  isAdmin user2 = true →
  is_Some (parseStatus s2) →
  updateBookingStatus (updateBookingStatus db user1 id s1).1 user2 id s2
  = updateBookingStatus db user2 id s2.
Proof.
  unfold updateBookingStatus.
  destruct (isAdmin user1); cbn [negb]; [|discriminate].
  destruct (parseStatus s1) as [st1|]; [|discriminate].
  destruct (bookings db !! id) as [old|] eqn:Hold; [|discriminate].
  intros _ -> [st2 ->]. cbn. rewrite lookup_insert_eq.
  by rewrite insert_insert_eq.
Qed.

Lemma updateBookingStatus_last_wins_witness :
  let db := sampleDb (sampleRoom 1 1)
              [stay "b1" (jan2024 10) (jan2024 15) PENDING] in
  updateBookingStatus (updateBookingStatus db administrator "b1" "CANCELLED").1
    administrator "b1" "CONFIRMED"
  = updateBookingStatus db administrator "b1" "CONFIRMED".
Proof.
  intros db.
  apply (updateBookingStatus_last_wins db administrator administrator "b1"
           "CANCELLED" "CONFIRMED"
           (stay "b1" (jan2024 10) (jan2024 15) CANCELLED)).
  - reflexivity.
  - reflexivity.
  - by eexists.
Defined.

(** ** Cancelling twice *)

(** X6: once a cancellation has succeeded, every further cancellation of
    that booking, by the owner or by an administrator, is answered
    [Already Cancelled] and writes nothing; for anyone else it stays
    [Access Denied]. *)
Theorem cancelBooking_twice (db db' : Db) (user user' : User.t) (id : string)
    (bk : Booking.t) :
  cancelBooking db user id = (db', Ok bk) →
  (User.role user' = "ADMIN"%string ∨ Booking.userId bk = User.id user' →
   cancelBooking db' user' id = (db', Err AlreadyCancelled))
  ∧ (¬ (User.role user' = "ADMIN"%string ∨ Booking.userId bk = User.id user') →
     cancelBooking db' user' id = (db', Err AccessDenied)).
Proof.
  intros Hc.
  assert (Hst : bookings db' !! id = Some bk ∧ Booking.status bk = CANCELLED).
  { unfold cancelBooking in Hc.
    destruct (bookings db !! id) as [old|]; [|discriminate].
    destruct (_ && _); [discriminate|].
    destruct (statusEqb (Booking.status old) CANCELLED); [discriminate|].
    destruct (statusEqb (Booking.status old) COMPLETED); [discriminate|].
    injection Hc as <- <-. cbn. by rewrite lookup_insert_eq. }
  destruct Hst as [Hbk Hcan]. unfold cancelBooking. rewrite Hbk, Hcan.
  destruct (String.eqb_spec (User.role user') "ADMIN") as [Hr|Hr];
    destruct (String.eqb_spec (Booking.userId bk) (User.id user')) as [Ho|Ho];
    cbn; split; try reflexivity; try (intros Hn; exfalso; apply Hn; auto; fail).
  intros [?|?]; done.
Qed.

Lemma cancelBooking_twice_witness :
  let db := sampleDb (sampleRoom 1 1)
              [stay "b1" (jan2024 10) (jan2024 15) PENDING] in
  let db' := (cancelBooking db guest "b1").1 in
  cancelBooking db' administrator "b1" = (db', Err AlreadyCancelled)
  ∧ cancelBooking db' stranger "b1" = (db', Err AccessDenied).
Proof.
  intros db db'.
  destruct (cancelBooking_twice db db' guest administrator "b1"
              (stay "b1" (jan2024 10) (jan2024 15) CANCELLED) eq_refl) as [Ha _].
  destruct (cancelBooking_twice db db' guest stranger "b1"
              (stay "b1" (jan2024 10) (jan2024 15) CANCELLED) eq_refl) as [_ Hs].
  split.
  - apply Ha. left. reflexivity.
  - apply Hs. intros [H|H]; discriminate H.
Defined.

Lemma getBooking_access_witness :
  let b := stay "b1" (jan2024 10) (jan2024 15) PENDING in
  let db := sampleDb (sampleRoom 1 1) [b] in
  getBooking db guest "b1" = Ok b
  ∧ getBooking db administrator "b1" = Ok b
  ∧ getBooking db stranger "b1" = Err AccessDenied
  ∧ getBooking db stranger "b9" = Err BookingNotFound.
Proof.
  intros b db. split_and!.
  - apply (getBooking_access db guest "b1"). split; [reflexivity|by right].
  - apply (getBooking_access db administrator "b1"). split; [reflexivity|by left].
  - apply (getBooking_access db stranger "b1"). exists b.
    split_and!; [reflexivity | discriminate | discriminate].
  - apply (getBooking_access db stranger "b9"). reflexivity.
Defined.

Lemma cancel_gate_is_view_gate_witness :
  let db := sampleDb (sampleRoom 1 1)
              [stay "b1" (jan2024 10) (jan2024 15) COMPLETED] in
  (cancelBooking db stranger "b1").2 = Err AccessDenied
  ∧ (cancelBooking db stranger "b9").2 = Err BookingNotFound.
Proof.
  intros db. split.
  - apply (cancel_gate_is_view_gate db stranger "b1"). reflexivity.
  - apply (cancel_gate_is_view_gate db stranger "b9"). reflexivity.
Defined.

(** ** Counting rows across writes *)

Lemma countWhere_insert_fresh (cond : Booking.t -> bool) (r : gmap string Room.t)
    (m : gmap string Booking.t) (k : string) (b : Booking.t) :
  m !! k = None →
  countWhere cond (mkDb r (<[k:=b]> m))
  = (countWhere cond (mkDb r m) + (if cond b then 1 else 0))%nat.
Proof.
  intros Hk. unfold countWhere. cbn. destruct (cond b) eqn:Hc.
  - rewrite map_filter_insert_True by done.
    rewrite map_size_insert_None by (rewrite map_lookup_filter_None; auto). lia.
  - rewrite map_filter_insert_not' by (simpl; intros; congruence). lia.
Qed.

Lemma countWhere_replace (cond : Booking.t -> bool) (r : gmap string Room.t)
    (m : gmap string Booking.t) (k : string) (old new : Booking.t) :
  m !! k = Some old →
  (countWhere cond (mkDb r (<[k:=new]> m)) + (if cond old then 1 else 0)
   = countWhere cond (mkDb r m) + (if cond new then 1 else 0))%nat.
Proof.
  intros Hk.
  rewrite <- (insert_delete_id m k old Hk) at 2.
  rewrite <- (insert_delete_eq m k new).
  rewrite !countWhere_insert_fresh by apply lookup_delete_eq. lia.
Qed.

Lemma countWhere_mono (cond cond' : Booking.t -> bool) (db : Db) :
  (∀ b, cond b = true → cond' b = true) →
  (countWhere cond db <= countWhere cond' db)%nat.
Proof.
  intros Himp. unfold countWhere. apply map_subseteq_size.
  apply map_filter_strong_subseteq_ext. intros k b [Hc Hk]. split; [|done].
  cbn in *. auto.
Qed.

Lemma countWhere_rooms (cond : Booking.t -> bool) (db : Db) :
  countWhere cond db = countWhere cond (mkDb (rooms db) (bookings db)).
Proof. reflexivity. Qed.

(** What a successful creation went through. *)
Lemma createBooking_ok_inv (c : Clock) (db db' : Db) (user : User.t)
    (body : BookingBody.t) (newId : string) (bk : Booking.t) :
  createBooking c db user body newId = (db', Ok bk) →
  ∃ room,
    validateBooking c body = []
    ∧ rooms db !! BookingBody.roomId body = Some room
    ∧ Z.of_nat (countWhere (conflictWhere (BookingBody.roomId body)
                  (BookingBody.checkinDate body) (BookingBody.checkoutDate body)) db)
      < Room.availableRooms room
    ∧ bookings db !! newId = None
    ∧ bk = Booking.mk newId (User.id user) (BookingBody.roomId body)
             (BookingBody.checkinDate body) (BookingBody.checkoutDate body)
             (times (Room.price room)
                (inject_Z (ceilDiv (BookingBody.checkoutDate body
                                    - BookingBody.checkinDate body) msPerDay)))
             (BookingBody.guests body) PENDING
    ∧ db' = mkDb (rooms db) (<[newId := bk]> (bookings db)).
Proof.
  intros Hc.
  destruct (validateBooking c body) eqn:Hv;
    [|unfold createBooking in Hc; rewrite Hv in Hc; discriminate Hc].
  destruct (rooms db !! BookingBody.roomId body) as [room|] eqn:Hroom;
    [|unfold createBooking in Hc; rewrite Hv, Hroom in Hc; discriminate Hc].
  rewrite (createBooking_valid c db user body newId room Hv Hroom) in Hc.
  destruct (Z.leb_spec (Room.availableRooms room - Z.of_nat (countWhere
    (conflictWhere (BookingBody.roomId body) (BookingBody.checkinDate body)
       (BookingBody.checkoutDate body)) db)) 0) as [Hle|Hgt]; [discriminate Hc|].
  destruct (bookings db !! newId) eqn:Hnew; [discriminate Hc|].
  injection Hc as <- <-. exists room. split_and!; try reflexivity. lia.
Qed.

Lemma conflictWhere_own_range (rid : string) (c d : Z) (b : Booking.t) :
  Booking.roomId b = rid →
  activeStatus (Booking.status b) = true →
  Booking.checkinDate b = c →
  Booking.checkoutDate b = d →
  conflictWhere rid c d b = true.
Proof.
  intros Hr Ha Hc Hd. apply conflictWhere_true. split_and!; [done|done|].
  unfold overlapWhere. rewrite Hc, Hd.
  rewrite !orb_true_iff, !andb_true_iff, !Z.leb_le, !Z.geb_le. lia.
Qed.

(** ** Inventory across creation and cancellation *)

(** X7: a successful creation takes exactly one unit of the request's own
    range: the number of bookings the conflict query selects for that room
    and range grows by one, and it still does not exceed the room's
    [availableRooms] field. *)
Theorem createBooking_consumes_one (c : Clock) (db db' : Db) (user : User.t)
    (body : BookingBody.t) (newId : string) (bk : Booking.t) :
  createBooking c db user body newId = (db', Ok bk) →
  let selected :=
    countWhere (conflictWhere (BookingBody.roomId body)
                  (BookingBody.checkinDate body) (BookingBody.checkoutDate body)) in
  selected db' = S (selected db)
  ∧ ∃ room, rooms db' !! BookingBody.roomId body = Some room
            ∧ Z.of_nat (selected db') <= Room.availableRooms room.
Proof.
  intros Hc selected. subst selected.
  destruct (createBooking_ok_inv _ _ _ _ _ _ _ Hc)
    as (room & Hv & Hroom & Hlt & Hnew & Hbk & ->).
  rewrite countWhere_insert_fresh by done. rewrite <- countWhere_rooms.
  rewrite (conflictWhere_own_range _ _ _ bk) by (by rewrite Hbk).
  split; [lia|]. exists room. split; [exact Hroom|]. lia.
Qed.

Lemma createBooking_consumes_one_witness :
  let db := sampleDb (sampleRoom 2 2)
              [stay "b1" (jan2024 10) (jan2024 15) CONFIRMED] in
  let body := BookingBody.mk "r1" (jan2024 11) (jan2024 13) 2 in
  let db' := (createBooking newYearNoon db stranger body "b2").1 in
  countWhere (conflictWhere "r1" (jan2024 11) (jan2024 13)) db'
  = S (countWhere (conflictWhere "r1" (jan2024 11) (jan2024 13)) db).
Proof.
  intros db body db'.
  destruct (createBooking newYearNoon db stranger body "b2") as [db1 [bk|e]] eqn:Hc;
    [|vm_compute in Hc; discriminate Hc].
  subst db'. cbn [fst].
  exact (proj1 (createBooking_consumes_one newYearNoon db db1 stranger body "b2" bk Hc)).
Defined.

(** X8: booking creation writes at most one row and never touches a room:
    the rooms table is as it was (no inventory field is decremented), every
    stored booking is as it was, a refused request leaves the database as
    it was, and a created booking is stored under the new identifier with
    the authenticated user as its owner. *)
Theorem createBooking_frame (c : Clock) (db : Db) (user : User.t)
    (body : BookingBody.t) (newId : string) :
  let out := createBooking c db user body newId in
  rooms out.1 = rooms db
  ∧ (∀ k b, bookings db !! k = Some b → bookings out.1 !! k = Some b)
  ∧ (∀ e, out.2 = Err e → out.1 = db)
  ∧ (∀ bk, out.2 = Ok bk →
       bookings db !! newId = None
       ∧ bookings out.1 = <[newId := bk]> (bookings db)
       ∧ Booking.id bk = newId
       ∧ Booking.userId bk = User.id user).
Proof.
  cbn zeta. unfold createBooking.
  destruct (validateBooking c body); [|by split_and!].
  destruct (rooms db !! BookingBody.roomId body); [|by split_and!].
  cbn zeta. destruct (_ <=? 0); [by split_and!|].
  destruct (bookings db !! newId) eqn:Hnew; [by split_and!|].
  cbn. split_and!; try done.
  - intros k b Hk. rewrite lookup_insert_ne; [done|]. intros <-. congruence.
  - intros bk [= <-]. by split_and!.
Qed.

(** X9: cancelling a booking that the conflict query selects for a room
    and range gives the unit back: the number selected drops by exactly
    one, and the number is unchanged for every room and range the booking
    was not selected for. *)
Theorem cancelBooking_releases (db db' : Db) (user : User.t) (id : string)
    (bk : Booking.t) (rid : string) (c d : Z) :
  cancelBooking db user id = (db', Ok bk) →
  countWhere (conflictWhere rid c d) db
  = (countWhere (conflictWhere rid c d) db'
     + (if String.eqb (Booking.roomId bk) rid && overlapWhere c d bk
        then 1 else 0))%nat.
Proof.
  unfold cancelBooking.
  destruct (bookings db !! id) as [old|] eqn:Hold; [|discriminate].
  destruct (_ && _); [discriminate|].
  destruct (Booking.status old) eqn:Hst; cbn; try discriminate.
  all: intros [= <- <-].
  all: pose proof (countWhere_replace (conflictWhere rid c d) (rooms db)
                     (bookings db) id old (Booking.withStatus CANCELLED old) Hold) as H.
  all: rewrite <- countWhere_rooms in H.
  all: unfold conflictWhere in H; cbn in H; rewrite Hst in H; cbn in H.
  all: rewrite andb_true_r, andb_false_r in H; cbn in H.
  all: unfold conflictWhere, overlapWhere in *; cbn; lia.
Qed.

Lemma cancelBooking_releases_witness :
  let db := sampleDb (sampleRoom 1 1)
              [stay "b1" (jan2024 10) (jan2024 15) CONFIRMED] in
  let db' := (cancelBooking db guest "b1").1 in
  countWhere (conflictWhere "r1" (jan2024 11) (jan2024 13)) db
  = (countWhere (conflictWhere "r1" (jan2024 11) (jan2024 13)) db' + 1)%nat
  ∧ countWhere (conflictWhere "r1" (jan2024 16) (jan2024 18)) db
    = (countWhere (conflictWhere "r1" (jan2024 16) (jan2024 18)) db' + 0)%nat.
Proof.
  intros db db'. split.
  - exact (cancelBooking_releases db db' guest "b1"
             (stay "b1" (jan2024 10) (jan2024 15) CANCELLED)
             "r1" (jan2024 11) (jan2024 13) eq_refl).
  - exact (cancelBooking_releases db db' guest "b1"
             (stay "b1" (jan2024 10) (jan2024 15) CANCELLED)
             "r1" (jan2024 16) (jan2024 18) eq_refl).
Defined.

(** X10: a user can always cancel the booking they have just created,
    whatever their role, and the cancellation undoes the creation for
    every availability purpose: for every room and range the conflict
    query selects as many bookings as before the creation. *)
Theorem create_then_cancel (c : Clock) (db db1 : Db) (user : User.t)
    (body : BookingBody.t) (newId : string) (bk : Booking.t) :
  createBooking c db user body newId = (db1, Ok bk) →
  ∃ db2,
    cancelBooking db1 user newId = (db2, Ok (Booking.withStatus CANCELLED bk))
    ∧ statusOf db2 newId = Some CANCELLED
    ∧ ∀ rid c' d', countWhere (conflictWhere rid c' d') db2
                   = countWhere (conflictWhere rid c' d') db.
Proof.
  intros Hc.
  destruct (createBooking_ok_inv _ _ _ _ _ _ _ Hc)
    as (room & Hv & Hroom & Hlt & Hnew & Hbk & ->).
  assert (Hcan : cancelBooking (mkDb (rooms db) (<[newId:=bk]> (bookings db)))
                   user newId
                 = (mkDb (rooms db)
                      (<[newId:=Booking.withStatus CANCELLED bk]>
                         (<[newId:=bk]> (bookings db))),
                    Ok (Booking.withStatus CANCELLED bk))).
  { assert (Hown : Booking.userId bk = User.id user) by (by rewrite Hbk).
    assert (Hpen : Booking.status bk = PENDING) by (by rewrite Hbk).
    unfold cancelBooking. cbn [bookings rooms]. rewrite lookup_insert_eq.
    rewrite Hown, Hpen, String.eqb_refl, andb_false_r. reflexivity. }
  eexists. split; [exact Hcan|]. split.
  - unfold statusOf. cbn. by rewrite lookup_insert_eq.
  - intros rid c' d'. rewrite insert_insert_eq.
    rewrite countWhere_insert_fresh by done. rewrite <- countWhere_rooms.
    unfold conflictWhere. cbn. rewrite andb_false_r. cbn. lia.
Qed.

Lemma create_then_cancel_witness :
  let db := sampleDb (sampleRoom 1 1) [] in
  let body := BookingBody.mk "r1" (jan2024 11) (jan2024 13) 2 in
  let db1 := (createBooking newYearNoon db stranger body "b1").1 in
  ∃ db2 bk,
    cancelBooking db1 stranger "b1" = (db2, Ok bk)
    ∧ statusOf db2 "b1" = Some CANCELLED
    ∧ countWhere (conflictWhere "r1" (jan2024 11) (jan2024 13)) db2
      = countWhere (conflictWhere "r1" (jan2024 11) (jan2024 13)) db.
Proof.
  intros db body db1.
  destruct (createBooking newYearNoon db stranger body "b1") as [db1' [bk|e]] eqn:Hc;
    [|vm_compute in Hc; discriminate Hc].
  destruct (create_then_cancel newYearNoon db db1' stranger body "b1" bk Hc)
    as (db2 & Hcan & Hst & Hcount).
  exists db2, (Booking.withStatus CANCELLED bk). subst db1. cbn [fst].
  split_and!; [exact Hcan | exact Hst | apply Hcount].
Defined.

(** X11: every created booking is well formed and is charged for at least
    one night: its check-in is not before today's midnight, its check-out
    is after its check-in, it has one to ten guests, the number of nights
    is at least one, and for a room with a non-negative price the total
    price is at least the nightly price. *)
Theorem created_booking_well_formed (c : Clock) (db db' : Db) (user : User.t)
    (body : BookingBody.t) (newId : string) (bk : Booking.t) :
  createBooking c db user body newId = (db', Ok bk) →
  wellFormed bk
  ∧ today c <= Booking.checkinDate bk
  ∧ 1 <= ceilDiv (Booking.checkoutDate bk - Booking.checkinDate bk) msPerDay
  ∧ ∃ room, rooms db !! Booking.roomId bk = Some room
            ∧ ((0 <= Room.price room)%Q →
               (Room.price room <= Booking.totalPrice bk)%Q).
Proof.
  intros Hc.
  destruct (createBooking_ok_inv _ _ _ _ _ _ _ Hc)
    as (room & Hv & Hroom & _ & _ & -> & _).
  apply validateBooking_nil in Hv as (_ & Htoday & Hrange & Hguests).
  pose proof (ceilDiv_spec (BookingBody.checkoutDate body
                            - BookingBody.checkinDate body) msPerDay
                ltac:(reflexivity)) as [_ Hup].
  assert (Hn : 1 <= ceilDiv (BookingBody.checkoutDate body
                             - BookingBody.checkinDate body) msPerDay).
  { assert (0 < msPerDay) by reflexivity. nia. }
  cbn. split_and!; try done.
  exists room. split; [exact Hroom|]. intros Hpos.
  by apply times_ge.
Qed.

Lemma created_booking_well_formed_witness :
  let db := sampleDb (sampleRoom 1 1) [] in
  let body := BookingBody.mk "r1" (jan2024 11) (jan2024 11 + 3600000) 2 in
  ∃ bk, (createBooking newYearNoon db stranger body "b1").2 = Ok bk
        ∧ wellFormed bk
        ∧ 1 <= ceilDiv (Booking.checkoutDate bk - Booking.checkinDate bk) msPerDay.
Proof.
  intros db body.
  destruct (createBooking newYearNoon db stranger body "b1") as [db' [bk|e]] eqn:Hc;
    [|vm_compute in Hc; discriminate Hc].
  exists bk. cbn [snd].
  destruct (created_booking_well_formed newYearNoon db db' stranger body "b1" bk Hc)
    as (Hwf & _ & Hn & _).
  split_and!; [reflexivity | exact Hwf | exact Hn].
Defined.

(** ** Invariants of request sequences *)

Lemma createBooking_refused (c : Clock) (db : Db) (user : User.t)
    (body : BookingBody.t) (newId : string) (e : ApiError) :
  (createBooking c db user body newId).2 = Err e →
  (createBooking c db user body newId).1 = db.
Proof.
  unfold createBooking.
  destruct (validateBooking c body); [|done].
  destruct (rooms db !! BookingBody.roomId body); [|done].
  cbn zeta. destruct (_ <=? 0); [done|].
  destruct (bookings db !! newId); [done|discriminate].
Qed.

Lemma handle_rooms (db : Db) (r : Request) : rooms (handle db r) = rooms db.
Proof.
  destruct r as [| c user body newId | user id s | user id]; cbn; [done|..].
  - unfold createBooking.
    destruct (validateBooking c body); [|done].
    destruct (rooms db !! BookingBody.roomId body); [|done].
    cbn zeta. destruct (_ <=? 0); [done|].
    by destruct (bookings db !! newId).
  - unfold updateBookingStatus. destruct (negb _); [done|].
    destruct (parseStatus s); [|done]. by destruct (bookings db !! id).
  - unfold cancelBooking. destruct (bookings db !! id); [|done].
    destruct (_ && _); [done|].
    destruct (statusEqb _ CANCELLED); [done|].
    by destruct (statusEqb _ COMPLETED).
Qed.

Lemma handle_wellFormed (db : Db) (r : Request) :
  (∀ k b, bookings db !! k = Some b → wellFormed b) →
  ∀ k b, bookings (handle db r) !! k = Some b → wellFormed b.
Proof.
  intros Hwf k b.
  destruct r as [| c user body newId | user id s | user id]; cbn; [apply Hwf|..].
  - destruct (createBooking c db user body newId) as [db' [bk|e]] eqn:Hc; cbn.
    + destruct (createBooking_ok_inv _ _ _ _ _ _ _ Hc)
        as (room & Hv & _ & _ & _ & Hbk & ->).
      apply validateBooking_nil in Hv as (_ & _ & Hrange & Hguests).
      cbn. destruct (decide (newId = k)) as [->|Hne].
      * rewrite lookup_insert_eq. intros [= <-]. rewrite Hbk. by split.
      * rewrite lookup_insert_ne by done. apply Hwf.
    + pose proof (createBooking_refused c db user body newId e) as Herr.
      rewrite Hc in Herr. cbn in Herr. rewrite (Herr eq_refl). apply Hwf.
  - unfold updateBookingStatus. destruct (negb _); [apply Hwf|].
    destruct (parseStatus s); [|apply Hwf].
    destruct (bookings db !! id) as [old|] eqn:Hold; [|apply Hwf].
    cbn. destruct (decide (id = k)) as [->|Hne].
    + rewrite lookup_insert_eq. intros [= <-]. exact (Hwf _ _ Hold).
    + rewrite lookup_insert_ne by done. apply Hwf.
  - unfold cancelBooking.
    destruct (bookings db !! id) as [old|] eqn:Hold; [|apply Hwf].
    destruct (_ && _); [apply Hwf|].
    destruct (statusEqb _ CANCELLED); [apply Hwf|].
    destruct (statusEqb _ COMPLETED); [apply Hwf|].
    cbn. destruct (decide (id = k)) as [->|Hne].
    + rewrite lookup_insert_eq. intros [= <-]. exact (Hwf _ _ Hold).
    + rewrite lookup_insert_ne by done. apply Hwf.
Qed.

(** X12: well-formed rows stay well formed: if every stored booking has its
    check-out after its check-in and one to ten guests, the same holds
    after any sequence of availability checks, booking creations, status
    updates and cancellations. *)
Theorem wellFormed_preserved (db : Db) (rs : list Request) :
  (∀ k b, bookings db !! k = Some b → wellFormed b) →
  ∀ k b, bookings (handleAll db rs) !! k = Some b → wellFormed b.
Proof.
  revert db. induction rs as [|r rs IH]; intros db Hwf; [exact Hwf|].
  cbn. apply IH. by apply handle_wellFormed.
Qed.

Lemma wellFormed_preserved_witness :
  let db := sampleDb (sampleRoom 2 2)
              [stay "b1" (jan2024 10) (jan2024 15) PENDING] in
  let rs := [PostBooking newYearNoon stranger
               (BookingBody.mk "r1" (jan2024 11) (jan2024 13) 2) "b2";
             PutBookingStatus administrator "b1" "COMPLETED";
             PutBookingCancel stranger "b2"] in
  ∃ b, bookings (handleAll db rs) !! "b2"%string = Some b ∧ wellFormed b.
Proof.
  intros db rs.
  destruct (bookings (handleAll db rs) !! "b2"%string) as [b|] eqn:Hb;
    [|vm_compute in Hb; discriminate Hb].
  exists b. split; [reflexivity|].
  apply (wellFormed_preserved db rs) with (k := "b2"%string); [|exact Hb].
  clear b Hb. intros k b Hk.
  destruct (decide (k = "b1"%string)) as [->|Hne].
  - injection Hk as <-. split; vm_compute; [reflexivity|split; discriminate].
  - unfold db, sampleDb in Hk. cbn in Hk.
    rewrite lookup_insert_ne in Hk by done. rewrite lookup_empty in Hk.
    discriminate Hk.
Defined.

Lemma occupies_conflictWhere (rid : string) (t c d : Z) (b : Booking.t) :
  c <= t <= d →
  occupies rid t b = true →
  conflictWhere rid c d b = true.
Proof.
  unfold occupies, conflictWhere, overlapWhere. intros Ht.
  rewrite !andb_true_iff, !orb_true_iff, !andb_true_iff, !Z.leb_le, !Z.geb_le.
  intros [[[? ?] ?] ?]. split_and!; [done|done|lia].
Qed.

Lemma handle_noOverbooking (db : Db) (r : Request) :
  isAdminStatusUpdate r = false →
  noOverbooking db →
  noOverbooking (handle db r).
Proof.
  intros Hr Hinv rid room t Hroom. rewrite handle_rooms in Hroom.
  specialize (Hinv rid room t Hroom).
  destruct r as [| c user body newId | user id s | user id]; cbn; [exact Hinv|..].
  - destruct (createBooking c db user body newId) as [db' [bk|e]] eqn:Hc; cbn.
    + destruct (createBooking_ok_inv _ _ _ _ _ _ _ Hc)
        as (room' & Hv & Hroom' & Hlt & Hnew & Hbk & ->).
      rewrite countWhere_insert_fresh by done. rewrite <- countWhere_rooms.
      destruct (occupies rid t bk) eqn:Hocc; [|lia].
      assert (Hin : Booking.roomId bk = rid
                    ∧ Booking.checkinDate bk <= t <= Booking.checkoutDate bk).
      { unfold occupies in Hocc.
        rewrite !andb_true_iff, !Z.leb_le, String.eqb_eq in Hocc. tauto. }
      rewrite Hbk in Hin. cbn in Hin. destruct Hin as [<- Ht].
      rewrite Hroom' in Hroom. injection Hroom as <-.
      pose proof (countWhere_mono (occupies (BookingBody.roomId body) t)
                    (conflictWhere (BookingBody.roomId body)
                       (BookingBody.checkinDate body) (BookingBody.checkoutDate body))
                    db (fun b => occupies_conflictWhere _ t _ _ b Ht)). lia.
    + pose proof (createBooking_refused c db user body newId e) as Herr.
      rewrite Hc in Herr. cbn in Herr. by rewrite (Herr eq_refl).
  - cbn in Hr. unfold updateBookingStatus. by rewrite Hr.
  - unfold cancelBooking.
    destruct (bookings db !! id) as [old|] eqn:Hold; [|exact Hinv].
    destruct (_ && _); [exact Hinv|].
    destruct (statusEqb _ CANCELLED); [exact Hinv|].
    destruct (statusEqb _ COMPLETED); [exact Hinv|].
    cbn [fst].
    pose proof (countWhere_replace (occupies rid t) (rooms db) (bookings db) id
                  old (Booking.withStatus CANCELLED old) Hold) as H.
    rewrite <- countWhere_rooms in H.
    assert (Hoff : occupies rid t (Booking.withStatus CANCELLED old) = false).
    { unfold occupies. cbn. by rewrite andb_false_r. }
    rewrite Hoff in H. destruct (occupies rid t old); lia.
Qed.

(** X13: requests handled one after another never overbook a room: if at
    every instant every room holds at most [availableRooms] bookings that
    are [PENDING] or [CONFIRMED] and whose stay contains the instant, the
    same holds after any sequence of availability checks, booking
    creations, cancellations and status requests of non-administrators. *)
Theorem noOverbooking_preserved (db : Db) (rs : list Request) :
  forallb (fun r => negb (isAdminStatusUpdate r)) rs = true →
  noOverbooking db →
  noOverbooking (handleAll db rs).
Proof.
  revert db. induction rs as [|r rs IH]; intros db Hrs Hinv; [exact Hinv|].
  cbn in Hrs. apply andb_true_iff in Hrs as [Hr Hrs].
  apply negb_true_iff in Hr. cbn. apply IH; [exact Hrs|].
  by apply handle_noOverbooking.
Qed.

Lemma noOverbooking_preserved_witness :
  let db := sampleDb (sampleRoom 1 1) [] in
  let rs := [PostBooking newYearNoon guest
               (BookingBody.mk "r1" (jan2024 11) (jan2024 13) 2) "b1";
             PostBooking newYearNoon stranger
               (BookingBody.mk "r1" (jan2024 12) (jan2024 14) 1) "b2";
             PutBookingCancel guest "b1";
             PostBooking newYearNoon stranger
               (BookingBody.mk "r1" (jan2024 12) (jan2024 14) 1) "b3"] in
  Z.of_nat (countWhere (occupies "r1" (jan2024 12)) (handleAll db rs)) <= 1.
Proof.
  intros db rs.
  apply (noOverbooking_preserved db rs) with (room := sampleRoom 1 1);
    [reflexivity| |reflexivity].
  intros rid room t Hroom.
  assert (Hz : countWhere (occupies rid t) db = 0%nat).
  { unfold countWhere, db, sampleDb. cbn.
    by rewrite map_filter_empty, map_size_empty. }
  rewrite Hz.
  destruct (decide (rid = "r1"%string)) as [->|Hne].
  - injection Hroom as <-. vm_compute. discriminate.
  - unfold db, sampleDb in Hroom. cbn in Hroom.
    rewrite lookup_insert_ne in Hroom by done. rewrite lookup_empty in Hroom.
    discriminate Hroom.
Defined.

(** ** Booking statistics *)

Lemma countBookings_countWhere (cond : Booking.t -> bool) (db : Db) :
  countBookings cond db = Z.of_nat (countWhere cond db).
Proof. unfold countBookings. by rewrite length_findMany. Qed.

Lemma length_by_status (l : list Booking.t) :
  length (List.filter (fun _ => true) l)
  = (length (List.filter (hasStatus PENDING) l)
     + length (List.filter (hasStatus CONFIRMED) l)
     + length (List.filter (hasStatus CANCELLED) l)
     + length (List.filter (hasStatus COMPLETED) l))%nat.
Proof.
  induction l as [|b l IH]; [reflexivity|].
  unfold hasStatus in *. cbn [List.filter].
  destruct (Booking.status b); cbn [statusEqb length]; lia.
Qed.

(** The revenue figure as a plain sum. *)
Lemma orZero_sumTotalPrice (l : list Booking.t) :
  orZero (sumTotalPrice l)
  = foldr (fun b acc => Qplus (Booking.totalPrice b) acc) 0%Q l.
Proof. by destruct l. Qed.

Lemma revenue_perm (l l' : list (string * Booking.t)) :
  l ≡ₚ l' →
  (orZero (sumTotalPrice (List.filter earnsRevenue (snd <$> l)))
   == orZero (sumTotalPrice (List.filter earnsRevenue (snd <$> l'))))%Q.
Proof.
  rewrite !orZero_sumTotalPrice.
  induction 1 as [|x l l' _ IH|x y l|l l' l'' _ IH1 _ IH2].
  - reflexivity.
  - rewrite !fmap_cons. cbn [List.filter].
    destruct (earnsRevenue x.2); cbn [foldr]; [|exact IH].
    change (foldr _ _ (List.filter earnsRevenue (snd <$> l)))
      with (foldr (fun b acc => Qplus (Booking.totalPrice b) acc) 0%Q
              (List.filter earnsRevenue (snd <$> l))) in *.
    now rewrite IH.
  - rewrite !fmap_cons. cbn [List.filter].
    destruct (earnsRevenue x.2), (earnsRevenue y.2); cbn [foldr];
      try reflexivity. ring.
  - now rewrite IH1.
Qed.

Lemma revenue_insert_fresh (r : gmap string Room.t) (m : gmap string Booking.t)
    (k : string) (b : Booking.t) :
  m !! k = None →
  (orZero (sumTotalPrice (findMany earnsRevenue (mkDb r (<[k:=b]> m))))
   == (if earnsRevenue b then Booking.totalPrice b else 0)
      + orZero (sumTotalPrice (findMany earnsRevenue (mkDb r m))))%Q.
Proof.
  intros Hk. unfold findMany. cbn [bookings].
  rewrite (revenue_perm _ _ (map_to_list_insert m k b Hk)).
  rewrite !orZero_sumTotalPrice, fmap_cons. cbn [List.filter snd].
  destruct (earnsRevenue b); cbn [foldr]; [reflexivity|ring].
Qed.

Lemma filter_snd_perm (cond : Booking.t -> bool)
    (l l' : list (string * Booking.t)) :
  l ≡ₚ l' → List.filter cond (snd <$> l) ≡ₚ List.filter cond (snd <$> l').
Proof.
  induction 1 as [|x l l' _ IH|x y l|l l' l'' _ IH1 _ IH2].
  - reflexivity.
  - rewrite !fmap_cons. cbn [List.filter].
    destruct (cond x.2); [by constructor|exact IH].
  - rewrite !fmap_cons. cbn [List.filter].
    destruct (cond x.2), (cond y.2); try reflexivity. apply perm_swap.
  - by etrans.
Qed.

Lemma findMany_insert_fresh (cond : Booking.t -> bool) (r : gmap string Room.t)
    (m : gmap string Booking.t) (k : string) (b : Booking.t) :
  m !! k = None →
  findMany cond (mkDb r (<[k:=b]> m))
  ≡ₚ (if cond b then [b] else []) ++ findMany cond (mkDb r m).
Proof.
  intros Hk. unfold findMany. cbn [bookings].
  rewrite (filter_snd_perm cond _ _ (map_to_list_insert m k b Hk)).
  rewrite fmap_cons. cbn [List.filter snd]. by destruct (cond b).
Qed.

(** The rows a query selects, across the replacement of one row. *)
Lemma findMany_replace (cond : Booking.t -> bool) (r : gmap string Room.t)
    (m : gmap string Booking.t) (k : string) (old new : Booking.t) :
  m !! k = Some old →
  (if cond old then [old] else []) ++ findMany cond (mkDb r (<[k:=new]> m))
  ≡ₚ (if cond new then [new] else []) ++ findMany cond (mkDb r m).
Proof.
  intros Hk.
  rewrite <- (insert_delete_id m k old Hk) at 2.
  rewrite <- (insert_delete_eq m k new).
  rewrite !findMany_insert_fresh by apply lookup_delete_eq.
  rewrite !(assoc_L (++)). f_equiv. apply Permutation_app_comm.
Qed.

(** X14: the statistics are for administrators only, and their counts are
    consistent: the total number of bookings is the sum of the numbers of
    [PENDING], [CONFIRMED], [CANCELLED] and [COMPLETED] bookings, each of
    them non-negative. *)
Theorem stats_counts_add_up (db : Db) (user : User.t) :
  (isAdmin user = false → getBookingStats db user = Err AccessDenied)
  ∧ (isAdmin user = true →
     ∃ s, getBookingStats db user = Ok s
          ∧ Stats.totalBookings s
            = Stats.pendingBookings s + Stats.confirmedBookings s
              + Stats.cancelledBookings s + Stats.completedBookings s
          ∧ Stats.totalBookings s = Z.of_nat (size (bookings db))
          ∧ 0 <= Stats.pendingBookings s ∧ 0 <= Stats.confirmedBookings s
          ∧ 0 <= Stats.cancelledBookings s ∧ 0 <= Stats.completedBookings s).
Proof.
  unfold getBookingStats. split; intros ->; [reflexivity|].
  eexists. split; [reflexivity|]. cbn.
  unfold countBookings, findMany. split_and!; try lia.
  - rewrite length_by_status. lia.
  - by rewrite filter_true, length_fmap, length_map_to_list.
Qed.

Lemma stats_counts_add_up_witness :
  let db := sampleDb (sampleRoom 3 3)
              [stay "b1" (jan2024 10) (jan2024 15) PENDING;
               stay "b2" (jan2024 10) (jan2024 15) CONFIRMED;
               stay "b3" (jan2024 16) (jan2024 18) CANCELLED] in
  getBookingStats db guest = Err AccessDenied
  ∧ ∃ s, getBookingStats db administrator = Ok s
         ∧ Stats.totalBookings s = 3.
Proof.
  intros db.
  destruct (stats_counts_add_up db guest) as [Hdenied _].
  destruct (stats_counts_add_up db administrator) as [_ Hok].
  split; [apply Hdenied; reflexivity|].
  destruct (Hok eq_refl) as (s & Hs & _ & Htot & _).
  exists s. split; [exact Hs|]. rewrite Htot. vm_compute. reflexivity.
Defined.

Lemma getBookingStats_ok (db : Db) (user : User.t) (s : Stats.t) :
  getBookingStats db user = Ok s →
  s = Stats.mk (Z.of_nat (countWhere (fun _ => true) db))
        (Z.of_nat (countWhere (hasStatus PENDING) db))
        (Z.of_nat (countWhere (hasStatus CONFIRMED) db))
        (Z.of_nat (countWhere (hasStatus CANCELLED) db))
        (Z.of_nat (countWhere (hasStatus COMPLETED) db))
        (orZero (sumTotalPrice (findMany earnsRevenue db))).
Proof.
  unfold getBookingStats. destruct (negb _); [discriminate|].
  intros [= <-]. by rewrite !countBookings_countWhere.
Qed.

(** X15: a created booking shows in the statistics as one more booking and
    one more [PENDING] booking; the other counts and the revenue are as
    before, since only [CONFIRMED] and [COMPLETED] bookings earn revenue. *)
Theorem stats_after_create (c : Clock) (db db' : Db) (user admin : User.t)
    (body : BookingBody.t) (newId : string) (bk : Booking.t) (s s' : Stats.t) :
  createBooking c db user body newId = (db', Ok bk) →
  getBookingStats db admin = Ok s →
  getBookingStats db' admin = Ok s' →
  Stats.totalBookings s' = Stats.totalBookings s + 1
  ∧ Stats.pendingBookings s' = Stats.pendingBookings s + 1
  ∧ Stats.confirmedBookings s' = Stats.confirmedBookings s
  ∧ Stats.cancelledBookings s' = Stats.cancelledBookings s
  ∧ Stats.completedBookings s' = Stats.completedBookings s
  ∧ (Stats.totalRevenue s' == Stats.totalRevenue s)%Q.
Proof.
  intros Hc Hs Hs'.
  destruct (createBooking_ok_inv _ _ _ _ _ _ _ Hc)
    as (room & _ & _ & _ & Hnew & Hbk & ->).
  apply getBookingStats_ok in Hs, Hs'. subst s s'. cbn [Stats.totalBookings
    Stats.pendingBookings Stats.confirmedBookings Stats.cancelledBookings
    Stats.completedBookings Stats.totalRevenue].
  rewrite !countWhere_insert_fresh by done. rewrite <- !countWhere_rooms.
  rewrite revenue_insert_fresh by done.
  assert (Hpen : Booking.status bk = PENDING) by (by rewrite Hbk).
  unfold hasStatus, earnsRevenue. rewrite Hpen. cbn [statusEqb].
  split_and!; try lia.
  unfold findMany. cbn [bookings]. ring.
Qed.

Lemma stats_after_create_witness :
  let db := sampleDb (sampleRoom 2 2)
              [stay "b1" (jan2024 10) (jan2024 15) CONFIRMED] in
  let body := BookingBody.mk "r1" (jan2024 11) (jan2024 13) 2 in
  let db' := (createBooking newYearNoon db stranger body "b2").1 in
  ∃ s s', getBookingStats db administrator = Ok s
          ∧ getBookingStats db' administrator = Ok s'
          ∧ Stats.totalBookings s' = Stats.totalBookings s + 1
          ∧ Stats.pendingBookings s' = Stats.pendingBookings s + 1.
Proof.
  intros db body db'.
  destruct (createBooking newYearNoon db stranger body "b2") as [db1 [bk|e]] eqn:Hc;
    [|vm_compute in Hc; discriminate Hc].
  subst db'. cbn [fst].
  destruct (getBookingStats db administrator) as [s|] eqn:Hs; [|discriminate Hs].
  destruct (getBookingStats db1 administrator) as [s'|] eqn:Hs'; [|discriminate Hs'].
  exists s, s'.
  destruct (stats_after_create newYearNoon db db1 stranger administrator body
              "b2" bk s s' Hc Hs Hs') as (Ht & Hp & _).
  by split_and!.
Defined.

(** X16: a cancellation moves one booking from [PENDING] or [CONFIRMED] to
    [CANCELLED] in the statistics: the total and the [COMPLETED] count are
    as before and the [CANCELLED] count grows by one; for a [PENDING]
    booking the [PENDING] count falls by one and the revenue is summed
    over the same bookings as before, for a [CONFIRMED] one the
    [CONFIRMED] count falls by one and the revenue is summed over the
    bookings summed before without the cancelled one. *)
Theorem stats_after_cancel (db db' : Db) (user admin : User.t) (id : string)
    (bk : Booking.t) (s s' : Stats.t) :
  cancelBooking db user id = (db', Ok bk) →
  getBookingStats db admin = Ok s →
  getBookingStats db' admin = Ok s' →
  Stats.totalBookings s' = Stats.totalBookings s
  ∧ Stats.cancelledBookings s' = Stats.cancelledBookings s + 1
  ∧ Stats.completedBookings s' = Stats.completedBookings s
  ∧ ∃ old, bookings db !! id = Some old
      ∧ ((Booking.status old = PENDING
          ∧ Stats.pendingBookings s' = Stats.pendingBookings s - 1
          ∧ Stats.confirmedBookings s' = Stats.confirmedBookings s
          ∧ findMany earnsRevenue db' ≡ₚ findMany earnsRevenue db)
         ∨ (Booking.status old = CONFIRMED
            ∧ Stats.pendingBookings s' = Stats.pendingBookings s
            ∧ Stats.confirmedBookings s' = Stats.confirmedBookings s - 1
            ∧ old :: findMany earnsRevenue db' ≡ₚ findMany earnsRevenue db)).
Proof.
  intros Hc Hs Hs'. apply getBookingStats_ok in Hs, Hs'. subst s s'.
  cbn [Stats.totalBookings Stats.pendingBookings Stats.confirmedBookings
       Stats.cancelledBookings Stats.completedBookings].
  unfold cancelBooking in Hc.
  destruct (bookings db !! id) as [old|] eqn:Hold; [|discriminate].
  destruct (_ && _); [discriminate|].
  pose proof (fun cond => countWhere_replace cond (rooms db) (bookings db) id
                old (Booking.withStatus CANCELLED old) Hold) as Hcount.
  pose proof (findMany_replace earnsRevenue (rooms db) (bookings db) id
                old (Booking.withStatus CANCELLED old) Hold) as Hrev.
  pose proof (Hcount (fun _ => true)) as Ht.
  pose proof (Hcount (hasStatus PENDING)) as Hp.
  pose proof (Hcount (hasStatus CONFIRMED)) as Hcf.
  pose proof (Hcount (hasStatus CANCELLED)) as Hcn.
  pose proof (Hcount (hasStatus COMPLETED)) as Hcm.
  clear Hcount. rewrite <- !countWhere_rooms in *.
  unfold hasStatus, earnsRevenue in *. cbn [Booking.withStatus Booking.status
    statusEqb] in *.
  destruct (Booking.status old) eqn:Hst; cbn [statusEqb] in *; try discriminate.
  - injection Hc as <- <-. split_and!; try lia. exists old.
    split; [reflexivity|]. left. split_and!; try done; lia.
  - injection Hc as <- <-. split_and!; try lia. exists old.
    split; [reflexivity|]. right. split_and!; try done; lia.
Qed.

Lemma stats_after_cancel_witness :
  let b := stay "b1" (jan2024 10) (jan2024 15) CONFIRMED in
  let db := sampleDb (sampleRoom 2 2) [b] in
  let db' := (cancelBooking db guest "b1").1 in
  ∃ s s', getBookingStats db administrator = Ok s
          ∧ getBookingStats db' administrator = Ok s'
          ∧ Stats.cancelledBookings s' = Stats.cancelledBookings s + 1
          ∧ Stats.totalBookings s' = Stats.totalBookings s
          ∧ b :: findMany earnsRevenue db' ≡ₚ findMany earnsRevenue db.
Proof.
  intros b db db'.
  destruct (getBookingStats db administrator) as [s|] eqn:Hs; [|discriminate Hs].
  destruct (getBookingStats db' administrator) as [s'|] eqn:Hs'; [|discriminate Hs'].
  exists s, s'.
  destruct (stats_after_cancel db db' guest administrator "b1"
              (stay "b1" (jan2024 10) (jan2024 15) CANCELLED) s s'
              eq_refl Hs Hs') as (Ht & Hcn & _ & old & Hold & Hcase).
  injection Hold as <-.
  destruct Hcase as [(Habs & _)|(_ & _ & _ & Hrows)]; [discriminate Habs|].
  by split_and!.
Defined.

(** X17: a status update moves the booking in and out of the revenue and
    nothing else: the number of bookings is as before, and the bookings
    whose totals are summed afterwards, together with the booking as it
    was if it earned revenue, are the bookings summed before together
    with the booking as it is now if it earns revenue, where a booking
    earns revenue while [CONFIRMED] or [COMPLETED]. *)
Theorem stats_after_status_update (db db' : Db) (user admin : User.t)
    (id status : string) (bk old : Booking.t) (s s' : Stats.t) :
  updateBookingStatus db user id status = (db', Ok bk) →
  bookings db !! id = Some old →
  getBookingStats db admin = Ok s →
  getBookingStats db' admin = Ok s' →
  Stats.totalBookings s' = Stats.totalBookings s
  ∧ (if earnsRevenue old then [old] else []) ++ findMany earnsRevenue db'
    ≡ₚ (if earnsRevenue bk then [bk] else []) ++ findMany earnsRevenue db.
Proof.
  intros Hu Hold Hs Hs'. apply getBookingStats_ok in Hs, Hs'. subst s s'.
  cbn [Stats.totalBookings].
  unfold updateBookingStatus in Hu.
  destruct (negb _); [discriminate|].
  destruct (parseStatus status) as [st|]; [|discriminate].
  rewrite Hold in Hu. injection Hu as <- <-.
  pose proof (countWhere_replace (fun _ => true) (rooms db) (bookings db) id
                old (Booking.withStatus st old) Hold) as Ht.
  rewrite <- !countWhere_rooms in *. split; [lia|].
  exact (findMany_replace earnsRevenue (rooms db) (bookings db) id
           old (Booking.withStatus st old) Hold).
Qed.

Lemma stats_after_status_update_witness :
  let b := stay "b1" (jan2024 10) (jan2024 15) PENDING in
  let db := sampleDb (sampleRoom 2 2) [b] in
  let db' := (updateBookingStatus db administrator "b1" "CONFIRMED").1 in
  findMany earnsRevenue db'
  ≡ₚ Booking.withStatus CONFIRMED b :: findMany earnsRevenue db.
Proof.
  intros b db db'.
  destruct (getBookingStats db administrator) as [s|] eqn:Hs; [|discriminate Hs].
  destruct (getBookingStats db' administrator) as [s'|] eqn:Hs'; [|discriminate Hs'].
  destruct (stats_after_status_update db db' administrator administrator "b1"
              "CONFIRMED" (Booking.withStatus CONFIRMED b) b s s'
              eq_refl eq_refl Hs Hs') as [_ Hrows].
  exact Hrows.
Defined.

(** ** Deleting a room *)

Lemma findMany_nonempty (cond : Booking.t -> bool) (db : Db) (k : string)
    (b : Booking.t) :
  bookings db !! k = Some b → cond b = true →
  (0 <? length (findMany cond db))%nat = true.
Proof.
  intros Hk Hc. apply Nat.ltb_lt. rewrite length_findMany.
  by apply (countWhere_pos cond db k b).
Qed.

Lemma findMany_empty (cond : Booking.t -> bool) (db : Db) :
  (0 <? length (findMany cond db))%nat = false →
  ∀ k b, bookings db !! k = Some b → cond b = false.
Proof.
  intros Hlen k b Hk. destruct (cond b) eqn:Hc; [|done].
  rewrite (findMany_nonempty cond db k b Hk Hc) in Hlen. discriminate Hlen.
Qed.

(** X18: a room with a [PENDING] or [CONFIRMED] booking is never deleted:
    an administrator is answered [Cannot Delete Room], also when the
    identifier names no room, since the bookings are looked at first; a
    non-administrator is answered [Access Denied]; and every answer other
    than success leaves the database as it was. This holds for either
    referential action of the schema. *)
Theorem deleteRoom_guard (onDelete : ReferentialAction) (db : Db)
    (user : User.t) (id : string) :
  (isAdmin user = false →
     deleteRoom onDelete db user id = (db, DeleteAccessDenied))
  ∧ (isAdmin user = true →
     (∃ k b, bookings db !! k = Some b
             ∧ Booking.roomId b = id
             ∧ activeStatus (Booking.status b) = true) →
     deleteRoom onDelete db user id = (db, CannotDeleteRoom))
  ∧ ((deleteRoom onDelete db user id).2 ≠ RoomDeleted →
     (deleteRoom onDelete db user id).1 = db).
Proof.
  unfold deleteRoom. split_and!.
  - intros ->. reflexivity.
  - intros -> (k & b & Hk & Hr & Ha). cbn [negb].
    rewrite (findMany_nonempty (activeOfRoom id) db k b Hk); [reflexivity|].
    unfold activeOfRoom. rewrite Ha, andb_true_r. by apply String.eqb_eq.
  - destruct (negb _); [done|].
    destruct (0 <? _)%nat; [done|].
    destruct (rooms db !! id); [|done].
    destruct onDelete; [done|].
    destruct (findMany (ofRoom id) db); done.
Qed.

Lemma deleteRoom_guard_witness :
  let db := sampleDb (sampleRoom 2 2)
              [stay "b1" (jan2024 10) (jan2024 15) PENDING] in
  deleteRoom Cascade db guest "r1" = (db, DeleteAccessDenied)
  ∧ deleteRoom Cascade db administrator "r1" = (db, CannotDeleteRoom)
  ∧ deleteRoom Restrict db administrator "r1" = (db, CannotDeleteRoom).
Proof.
  intros db. split_and!.
  - apply (deleteRoom_guard Cascade db guest "r1"). reflexivity.
  - apply (deleteRoom_guard Cascade db administrator "r1"); [reflexivity|].
    exists "b1"%string, (stay "b1" (jan2024 10) (jan2024 15) PENDING).
    by split_and!.
  - apply (deleteRoom_guard Restrict db administrator "r1"); [reflexivity|].
    exists "b1"%string, (stay "b1" (jan2024 10) (jan2024 15) PENDING).
    by split_and!.
Defined.

(** X19: a successful deletion was asked by an administrator for a stored
    room none of whose bookings was [PENDING] or [CONFIRMED]; afterwards
    the room is gone, every other room is as it was, no stored booking
    refers to the deleted room, and the bookings of other rooms are as
    they were. *)
Theorem deleteRoom_success (onDelete : ReferentialAction) (db db' : Db)
    (user : User.t) (id : string) :
  deleteRoom onDelete db user id = (db', RoomDeleted) →
  isAdmin user = true
  ∧ is_Some (rooms db !! id)
  ∧ (∀ k b, bookings db !! k = Some b → Booking.roomId b = id →
            activeStatus (Booking.status b) = false)
  ∧ rooms db' !! id = None
  ∧ (∀ other, other ≠ id → rooms db' !! other = rooms db !! other)
  ∧ (∀ k b, bookings db' !! k = Some b → Booking.roomId b ≠ id)
  ∧ (∀ k b, Booking.roomId b ≠ id →
            (bookings db' !! k = Some b ↔ bookings db !! k = Some b)).
Proof.
  unfold deleteRoom.
  destruct (isAdmin user); cbn [negb]; [|discriminate].
  destruct (0 <? _)%nat eqn:Hact; [discriminate|].
  destruct (rooms db !! id) as [room|] eqn:Hroom; [|discriminate].
  pose proof (findMany_empty _ _ Hact) as Hnone.
  assert (Hactive : ∀ k b, bookings db !! k = Some b → Booking.roomId b = id →
                           activeStatus (Booking.status b) = false).
  { intros k b Hk Hr. specialize (Hnone k b Hk). unfold activeOfRoom in Hnone.
    apply String.eqb_eq in Hr. rewrite Hr in Hnone. exact Hnone. }
  destruct onDelete.
  - intros [= <-]. cbn. split_and!; try done.
    + apply lookup_delete_eq.
    + intros other Hne. by apply lookup_delete_ne.
    + intros k b Hk. apply map_lookup_filter_Some in Hk as [_ Hf].
      cbn in Hf. unfold ofRoom in Hf. by apply String.eqb_neq.
    + intros k b Hne. rewrite map_lookup_filter_Some. cbn. unfold ofRoom.
      apply String.eqb_neq in Hne. tauto.
  - destruct (findMany (ofRoom id) db) eqn:Href; [|discriminate].
    intros [= <-]. cbn. split_and!; try done.
    + apply lookup_delete_eq.
    + intros other Hne. by apply lookup_delete_ne.
    + intros k b Hk Hr.
      assert (Hin : b ∈ findMany (ofRoom id) db).
      { apply elem_of_findMany. split; [by exists k|].
        unfold ofRoom. by apply String.eqb_eq. }
      rewrite Href in Hin. by apply not_elem_of_nil in Hin.
Qed.

Lemma deleteRoom_success_witness :
  let db := sampleDb (sampleRoom 2 2)
              [stay "b1" (jan2024 10) (jan2024 15) CANCELLED] in
  let db' := (deleteRoom Cascade db administrator "r1").1 in
  rooms db' !! "r1"%string = None
  ∧ bookings db' !! "b1"%string = None.
Proof.
  intros db db'.
  destruct (deleteRoom_success Cascade db db' administrator "r1" eq_refl)
    as (_ & _ & _ & Hgone & _ & Hrefs & _).
  split; [exact Hgone |].
  destruct (bookings db' !! "b1"%string) as [b|] eqn:Hb; [|reflexivity].
  exfalso. apply (Hrefs "b1"%string b Hb).
  vm_compute in Hb. discriminate Hb.
Defined.

(** X20: a room that has just been booked cannot be deleted: after a
    successful booking creation an administrator's deletion of that room
    is answered [Cannot Delete Room] and writes nothing. *)
Theorem booked_room_not_deleted (onDelete : ReferentialAction) (c : Clock)
    (db db' : Db) (user admin : User.t) (body : BookingBody.t)
    (newId : string) (bk : Booking.t) :
  createBooking c db user body newId = (db', Ok bk) →
  isAdmin admin = true →
  deleteRoom onDelete db' admin (BookingBody.roomId body) = (db', CannotDeleteRoom).
Proof.
  intros Hc Hadm.
  destruct (createBooking_ok_inv _ _ _ _ _ _ _ Hc)
    as (room & _ & _ & _ & _ & Hbk & ->).
  unfold deleteRoom. rewrite Hadm. cbn [negb].
  rewrite (findMany_nonempty _ _ newId bk); [reflexivity| |].
  - cbn. apply lookup_insert_eq.
  - rewrite Hbk. unfold activeOfRoom. cbn. by rewrite String.eqb_refl.
Qed.

Lemma booked_room_not_deleted_witness :
  let db := sampleDb (sampleRoom 1 1) [] in
  let body := BookingBody.mk "r1" (jan2024 11) (jan2024 13) 2 in
  let db' := (createBooking newYearNoon db stranger body "b1").1 in
  deleteRoom Restrict db' administrator "r1" = (db', CannotDeleteRoom).
Proof.
  intros db body db'.
  destruct (createBooking newYearNoon db stranger body "b1") as [db1 [bk|e]] eqn:Hc;
    [|vm_compute in Hc; discriminate Hc].
  subst db'. cbn [fst].
  exact (booked_room_not_deleted Restrict newYearNoon db db1 stranger
           administrator body "b1" bk Hc eq_refl).
Defined.

(** ** More on the availability check *)

(** X21: the answers of the availability check, in the order the handler
    decides them: [Missing Parameters] exactly when a date is absent;
    [Invalid Dates] exactly when both are present and the check-out is not
    after the check-in, whether or not the room exists; [Room Not Found]
    exactly when the dates are in order and the room is not stored; and a
    result exactly when the dates are in order and the room is stored. *)
Theorem checkAvailability_outcomes (db : Db) (id : string)
    (checkinDate checkoutDate : option Z) :
  (checkAvailability db id checkinDate checkoutDate = Err MissingParameters
   ↔ checkinDate = None ∨ checkoutDate = None)
  ∧ (checkAvailability db id checkinDate checkoutDate = Err InvalidDates
     ↔ ∃ c d, checkinDate = Some c ∧ checkoutDate = Some d ∧ d <= c)
  ∧ (checkAvailability db id checkinDate checkoutDate = Err RoomNotFound
     ↔ ∃ c d, checkinDate = Some c ∧ checkoutDate = Some d ∧ c < d
              ∧ rooms db !! id = None)
  ∧ ((∃ av, checkAvailability db id checkinDate checkoutDate = Ok av)
     ↔ ∃ c d, checkinDate = Some c ∧ checkoutDate = Some d ∧ c < d
              ∧ is_Some (rooms db !! id)).
Proof.
  unfold checkAvailability.
  destruct checkinDate as [c|], checkoutDate as [d|]; cycle 1.
  1-3: split_and!; split; intros H;
    repeat match goal with
           | H : ∃ _, _ |- _ => destruct H
           | H : _ ∧ _ |- _ => destruct H
           end; try discriminate; auto.
  rewrite Z.geb_leb. destruct (Z.leb_spec d c) as [Hle|Hlt];
    [|destruct (rooms db !! id) as [room|] eqn:Hroom];
    split_and!; split; intros H;
    repeat match goal with
           | H : ∃ _, _ |- _ => destruct H
           | H : _ ∧ _ |- _ => destruct H
           | H : _ ∨ _ |- _ => destruct H
           | H : is_Some None |- _ => destruct H
           | H : Some _ = Some _ |- _ => injection H as ->
           end; try discriminate; try lia; try reflexivity;
    try (by eexists);
    exists c, d; split_and!; try done; by eexists.
Qed.

Lemma checkAvailability_outcomes_witness :
  let db := sampleDb (sampleRoom 1 1) [] in
  checkAvailability db "r1" None (Some (jan2024 12)) = Err MissingParameters
  ∧ checkAvailability db "r9" (Some (jan2024 12)) (Some (jan2024 11)) = Err InvalidDates
  ∧ checkAvailability db "r9" (Some (jan2024 11)) (Some (jan2024 12)) = Err RoomNotFound.
Proof.
  intros db. split_and!.
  - apply (checkAvailability_outcomes db "r1" None (Some (jan2024 12))). by left.
  - apply (checkAvailability_outcomes db "r9" (Some (jan2024 12)) (Some (jan2024 11))).
    exists (jan2024 12), (jan2024 11). split_and!; try reflexivity.
    vm_compute. discriminate.
  - apply (checkAvailability_outcomes db "r9" (Some (jan2024 11)) (Some (jan2024 12))).
    exists (jan2024 11), (jan2024 12). split_and!; try reflexivity.
Defined.

Lemma conflictWhere_wider (rid : string) (c d c' d' : Z) (b : Booking.t) :
  c' <= c → c <= d → d <= d' →
  conflictWhere rid c d b = true → conflictWhere rid c' d' b = true.
Proof.
  intros Hc Hcd Hd. unfold conflictWhere, overlapWhere.
  rewrite !andb_true_iff, !orb_true_iff, !andb_true_iff, !Z.leb_le, !Z.geb_le.
  intros [[? ?] ?]. split_and!; [done|done|lia].
Qed.

(** X22: shortening a stay never costs availability: when the check
    succeeds for a range, it succeeds for every range inside it, selects
    no more bookings there, reports at least as many available units, and
    reports the room available if it was available for the longer range. *)
Theorem availability_of_shorter_stay (db : Db) (id : string) (c d c' d' : Z)
    (av' : Availability.t) :
  c' <= c → c < d → d <= d' →
  checkAvailability db id (Some c') (Some d') = Ok av' →
  ∃ av, checkAvailability db id (Some c) (Some d) = Ok av
        ∧ Availability.bookedRooms av <= Availability.bookedRooms av'
        ∧ Availability.availableRooms av' <= Availability.availableRooms av
        ∧ (Availability.isAvailable av' = true → Availability.isAvailable av = true).
Proof.
  intros Hc Hcd Hd Hav'.
  destruct (rooms db !! id) as [room|] eqn:Hroom.
  - rewrite (checkAvailability_valid db id room c' d' Hroom ltac:(lia)) in Hav'.
    injection Hav' as <-.
    rewrite (checkAvailability_valid db id room c d Hroom Hcd).
    eexists. split; [reflexivity|]. cbn.
    pose proof (countWhere_mono (conflictWhere id c d) (conflictWhere id c' d') db
                  (fun b => conflictWhere_wider id c d c' d' b Hc ltac:(lia) Hd)).
    split_and!; [lia|lia|]. rewrite !Z.gtb_ltb, !Z.ltb_lt. lia.
  - unfold checkAvailability in Hav'. rewrite Hroom in Hav'.
    destruct (c' >=? d'); discriminate Hav'.
Qed.

Lemma availability_of_shorter_stay_witness :
  let db := sampleDb (sampleRoom 2 2)
              [stay "b1" (jan2024 10) (jan2024 12) CONFIRMED] in
  ∃ av, checkAvailability db "r1" (Some (jan2024 14)) (Some (jan2024 16)) = Ok av
        ∧ Availability.bookedRooms av <= 1.
Proof.
  intros db.
  destruct (checkAvailability db "r1" (Some (jan2024 11)) (Some (jan2024 20)))
    as [av'|] eqn:Hav'; [|vm_compute in Hav'; discriminate Hav'].
  destruct (availability_of_shorter_stay db "r1" (jan2024 14) (jan2024 16)
              (jan2024 11) (jan2024 20) av'
              ltac:(vm_compute; discriminate) ltac:(vm_compute; reflexivity)
              ltac:(vm_compute; discriminate) Hav')
    as (av & Hav & Hb & _).
  exists av. split; [exact Hav|].
  assert (Hone : Availability.bookedRooms av' = 1)
    by (vm_compute in Hav'; injection Hav' as <-; reflexivity).
  lia.
Defined.

(** ** The room filter of the hotel search *)

Lemma searchRoomWhere_true (db : Db) (q : SearchQuery.t) (room : Room.t) :
  searchRoomWhere db q room = true
  ↔ ∀ k cnd, roomWhere q !! k = Some cnd → satisfies db room cnd = true.
Proof.
  unfold searchRoomWhere. rewrite forallb_forall. split.
  - intros Hall k cnd Hk. apply (Hall (k, cnd)).
    by apply list_elem_of_In, elem_of_map_to_list.
  - intros Hall [k cnd] Hin. apply list_elem_of_In, elem_of_map_to_list in Hin.
    by apply (Hall k cnd).
Qed.

(** X23: when the search gives both a minimum and a maximum price, the
    second spread replaces the [price] entry of the first: the filter
    object is the one of the maximum alone, the minimum has no effect on
    which rooms are included, and a room priced at most the maximum that
    passes the date entry is included even if it is cheaper than the
    minimum; with the minimum alone the entry is the lower bound. *)
Theorem search_minPrice_ignored_with_maxPrice (db : Db) (room : Room.t)
    (checkinDate checkoutDate : option Z) (minPrice maxPrice : Q) :
  let both := SearchQuery.mk checkinDate checkoutDate (Some minPrice) (Some maxPrice) in
  let onlyMax := SearchQuery.mk checkinDate checkoutDate None (Some maxPrice) in
  let onlyMin := SearchQuery.mk checkinDate checkoutDate (Some minPrice) None in
  roomWhere both !! "price"%string = Some (PriceLte maxPrice)
  ∧ roomWhere onlyMin !! "price"%string = Some (PriceGte minPrice)
  ∧ roomWhere both = roomWhere onlyMax
  ∧ searchRoomWhere db both room = searchRoomWhere db onlyMax room
  ∧ ((Room.price room <= maxPrice)%Q →
     datesWhere db both room = true →
     searchRoomWhere db both room = true).
Proof.
  intros both onlyMax onlyMin.
  assert (Hobj : roomWhere both = roomWhere onlyMax)
    by (unfold roomWhere, both, onlyMax, spread; cbn;
        by destruct checkinDate, checkoutDate).
  assert (Hprice : roomWhere both !! "price"%string = Some (PriceLte maxPrice))
    by (unfold roomWhere, both, spread; cbn;
        by destruct checkinDate, checkoutDate).
  split_and!.
  - exact Hprice.
  - unfold roomWhere, onlyMin, spread. cbn. by destruct checkinDate, checkoutDate.
  - exact Hobj.
  - unfold searchRoomWhere. by rewrite Hobj.
  - intros Hle Hdates. apply searchRoomWhere_true. intros k cnd Hk.
    destruct (decide (k = "price"%string)) as [->|Hne].
    + rewrite Hprice in Hk. injection Hk as <-. cbn. by apply Qle_bool_iff.
    + unfold roomWhere, both, spread in Hk. unfold datesWhere, both in Hdates.
      cbn in Hk, Hdates.
      destruct checkinDate as [ci|], checkoutDate as [co|];
        rewrite ?lookup_union, ?lookup_empty in Hk;
        rewrite ?(lookup_singleton_ne "price"%string k) in Hk by done;
        try discriminate Hk.
      destruct (decide (k = "OR"%string)) as [->|Hne'].
      * rewrite lookup_singleton_eq in Hk. injection Hk as <-. exact Hdates.
      * rewrite lookup_singleton_ne in Hk by done. discriminate Hk.
Qed.

Lemma search_minPrice_ignored_with_maxPrice_witness :
  let db := sampleDb (sampleRoom 1 1) [] in
  searchRoomWhere db
    (SearchQuery.mk None None (Some (3000 # 1)%Q) (Some (5000 # 1)%Q))
    (sampleRoom 1 1) = true
  ∧ searchRoomWhere db (SearchQuery.mk None None (Some (3000 # 1)%Q) None)
      (sampleRoom 1 1) = false.
Proof.
  intros db.
  destruct (search_minPrice_ignored_with_maxPrice db (sampleRoom 1 1) None None
              (3000 # 1)%Q (5000 # 1)%Q) as (_ & _ & _ & _ & Hlisted).
  split.
  - apply Hlisted; [vm_compute; discriminate | reflexivity].
  - vm_compute. reflexivity.
Defined.

(** X24: the date filter of the search never hides a room that can be
    booked: a room whose [availableRooms] field is positive passes it
    whatever its bookings, so every request that booking creation accepts
    is for a room the search lists for the same dates; a room whose field
    is not positive passes exactly when none of its bookings, of any
    status, satisfies the overlap blocks. *)
Theorem search_lists_bookable_rooms (db : Db) (room : Room.t) (ci co : Z)
    (minPrice maxPrice : option Q) :
  let q := SearchQuery.mk (Some ci) (Some co) minPrice maxPrice in
  (Room.availableRooms room > 0 → datesWhere db q room = true)
  ∧ (∀ c user body newId db' bk,
       createBooking c db user body newId = (db', Ok bk) →
       rooms db !! BookingBody.roomId body = Some room →
       BookingBody.checkinDate body = ci → BookingBody.checkoutDate body = co →
       datesWhere db q room = true)
  ∧ (Room.availableRooms room <= 0 →
     (datesWhere db q room = true
      ↔ ∀ k b, bookings db !! k = Some b → Booking.roomId b = Room.id room →
               overlapWhere ci co b = false)).
Proof.
  cbn zeta. unfold datesWhere. cbn [SearchQuery.checkinDate SearchQuery.checkoutDate].
  assert (Hpos : Room.availableRooms room > 0 →
                 (Room.availableRooms room >? 0) = true)
    by (intros; rewrite Z.gtb_ltb; apply Z.ltb_lt; lia).
  split_and!.
  - intros H. by rewrite (Hpos H).
  - intros c user body newId db' bk Hc Hroom _ _.
    destruct (createBooking_ok_inv _ _ _ _ _ _ _ Hc)
      as (room' & _ & Hroom' & Hlt & _).
    rewrite Hroom in Hroom'. injection Hroom' as <-.
    rewrite Hpos; [reflexivity|lia].
  - intros Hle.
    assert ((Room.availableRooms room >? 0) = false) as ->
      by (rewrite Z.gtb_ltb; apply Z.ltb_ge; lia).
    cbn [orb]. rewrite forallb_forall. split.
    + intros Hall k b Hk Hr.
      assert (Hin : b ∈ findMany (ofRoom (Room.id room)) db).
      { apply elem_of_findMany. split; [by exists k|].
        unfold ofRoom. by apply String.eqb_eq. }
      apply list_elem_of_In in Hin. apply Hall in Hin.
      by apply negb_true_iff in Hin.
    + intros Hnone b Hin. apply list_elem_of_In, elem_of_findMany in Hin
        as [[k Hk] Hr].
      unfold ofRoom in Hr. apply String.eqb_eq in Hr.
      apply negb_true_iff. by apply (Hnone k b).
Qed.

Lemma search_lists_bookable_rooms_witness :
  let db := sampleDb (sampleRoom 1 1)
              [stay "b1" (jan2024 10) (jan2024 15) CONFIRMED] in
  datesWhere db (SearchQuery.mk (Some (jan2024 11)) (Some (jan2024 13)) None None)
    (sampleRoom 1 1) = true
  ∧ (createBooking newYearNoon db stranger
       (BookingBody.mk "r1" (jan2024 11) (jan2024 13) 2) "b2").2
    = Err RoomNotAvailable.
Proof.
  intros db. split.
  - destruct (search_lists_bookable_rooms db (sampleRoom 1 1) (jan2024 11)
                (jan2024 13) None None) as [Hpos _].
    apply Hpos. reflexivity.
  - reflexivity.
Defined.

(** ** Validation reports every violated rule *)

(** X25: validation does not stop at the first violation: for a body
    whose room identifier is a string and whose dates are ISO-8601 dates,
    each of the four messages of the chains is among the reported details
    exactly when its rule is violated. *)
Theorem validateBooking_reports_all (c : Clock) (body : BookingBody.t) :
  ("Room ID is required"%string ∈ validateBooking c body
   ↔ BookingBody.roomId body = ""%string)
  ∧ ("Check-in date cannot be in the past"%string ∈ validateBooking c body
     ↔ BookingBody.checkinDate body < today c)
  ∧ ("Check-out date must be after check-in date"%string ∈ validateBooking c body
     ↔ BookingBody.checkoutDate body <= BookingBody.checkinDate body)
  ∧ ("Number of guests must be between 1 and 10"%string ∈ validateBooking c body
     ↔ ¬ (1 <= BookingBody.guests body <= 10)).
Proof.
  unfold validateBooking.
  destruct (String.eqb_spec (BookingBody.roomId body) "") as [Hr|Hr];
  destruct (Z.ltb_spec (BookingBody.checkinDate body) (today c));
  destruct (Z.leb_spec (BookingBody.checkoutDate body) (BookingBody.checkinDate body));
  destruct (Z.leb_spec 1 (BookingBody.guests body));
  destruct (Z.leb_spec (BookingBody.guests body) 10);
  cbn [andb app]; split_and!;
  (split; [intros Hin | intros Hc]);
  repeat match goal with
         | H : _ ∈ _ :: _ |- _ => apply elem_of_cons in H as [H|H]
         | H : _ ∈ [] |- _ => by apply not_elem_of_nil in H
         | H : _ = _ :> string |- _ => first [discriminate H | subst]
         end;
  try lia; try done; try (exfalso; lia);
  rewrite ?elem_of_cons; auto 10.
Qed.

Lemma validateBooking_reports_all_witness :
  let body := BookingBody.mk "" (jan2024 1 - msPerDay) (jan2024 1 - 2 * msPerDay) 11 in
  "Check-in date cannot be in the past"%string ∈ validateBooking newYearNoon body
  ∧ "Check-out date must be after check-in date"%string ∈ validateBooking newYearNoon body
  ∧ "Number of guests must be between 1 and 10"%string ∈ validateBooking newYearNoon body
  ∧ "Room ID is required"%string ∈ validateBooking newYearNoon body.
Proof.
  intros body.
  destruct (validateBooking_reports_all newYearNoon body)
    as (Hroom & Hpast & Hrange & Hguests).
  split_and!.
  - apply Hpast. vm_compute. reflexivity.
  - apply Hrange. vm_compute. discriminate.
  - apply Hguests. vm_compute. intros [_ H]. by apply H.
  - apply Hroom. reflexivity.
Defined.

Lemma createBooking_frame_witness :
  let db := sampleDb (sampleRoom 2 2)
              [stay "b1" (jan2024 10) (jan2024 15) CONFIRMED] in
  let body := BookingBody.mk "r1" (jan2024 11) (jan2024 13) 2 in
  let out := createBooking newYearNoon db stranger body "b2" in
  rooms out.1 = rooms db
  ∧ bookings out.1 !! "b1"%string
    = Some (stay "b1" (jan2024 10) (jan2024 15) CONFIRMED)
  ∧ ∃ bk, out.2 = Ok bk ∧ Booking.userId bk = "u2"%string.
Proof.
  intros db body out.
  destruct (createBooking_frame newYearNoon db stranger body "b2")
    as (Hrooms & Hkeep & _ & Hnew).
  split_and!.
  - exact Hrooms.
  - apply Hkeep. reflexivity.
  - fold out in Hnew. destruct out.2 as [bk|e] eqn:Hout;
      [|vm_compute in Hout; discriminate Hout].
    exists bk. split; [reflexivity|].
    by destruct (Hnew bk eq_refl) as (_ & _ & _ & ->).
Defined.

(** ** Creating and updating rooms *)

Lemma validateRoom_nil (body : RoomBody.t) :
  validateRoom body = []
  ↔ RoomBody.hotelId body ≠ ""%string
    ∧ RoomBody.type body ∈ roomTypes
    ∧ (0 <= RoomBody.price body)%Q
    ∧ 1 <= RoomBody.totalRooms body
    ∧ 0 <= RoomBody.availableRooms body
    ∧ (∀ d, RoomBody.description body = Some d → (String.length d <= 500)%nat).
Proof.
  unfold validateRoom.
  assert (Htype : existsb (String.eqb (RoomBody.type body)) roomTypes = true
                  ↔ RoomBody.type body ∈ roomTypes).
  { rewrite existsb_exists. split.
    - intros (x & Hin & Heq). apply String.eqb_eq in Heq. subst.
      by apply list_elem_of_In.
    - intros Hin. exists (RoomBody.type body). split.
      + by apply list_elem_of_In.
      + apply String.eqb_refl. }
  destruct (String.eqb_spec (RoomBody.hotelId body) "") as [Hh|Hh];
  destruct (existsb _ roomTypes) eqn:Ht;
  destruct (Qle_bool 0 (RoomBody.price body)) eqn:Hp;
  destruct (Z.leb_spec 1 (RoomBody.totalRooms body));
  destruct (Z.leb_spec 0 (RoomBody.availableRooms body));
  cbn [app].
  all: try (split; [discriminate|]; intros (? & Hty & Hpr & ? & ? & _);
            first [done | lia
                  | apply Htype in Hty; discriminate Hty
                  | apply Qle_bool_iff in Hpr; congruence]).
  destruct (RoomBody.description body) as [d|]; cbn [app].
  - destruct (Nat.leb_spec (String.length d) 500).
    + split; [intros _|done]. split_and!; try done.
      * by apply Htype.
      * by apply Qle_bool_iff.
      * by intros d' [= <-].
    + split; [discriminate|]. intros (_ & _ & _ & _ & _ & Hd).
      specialize (Hd d eq_refl). lia.
  - split; [intros _|done]. split_and!; try done.
    + by apply Htype.
    + by apply Qle_bool_iff.
Qed.

(** X26: what the room validation accepts: a hotel identifier, one of the
    five room types, a non-negative price, at least one room in total, a
    non-negative number of available rooms, and a description of at most
    500 characters when there is one. It never compares the two counts:
    an accepted body stays accepted with any other non-negative number of
    available rooms, also one above the total. *)
Theorem validateRoom_accepts (body : RoomBody.t) :
  (validateRoom body = []
   ↔ RoomBody.hotelId body ≠ ""%string
     ∧ RoomBody.type body ∈ roomTypes
     ∧ (0 <= RoomBody.price body)%Q
     ∧ 1 <= RoomBody.totalRooms body
     ∧ 0 <= RoomBody.availableRooms body
     ∧ (∀ d, RoomBody.description body = Some d → (String.length d <= 500)%nat))
  ∧ (validateRoom body = [] →
     ∀ n, 0 <= n → validateRoom (RoomBody.withAvailableRooms n body) = []).
Proof.
  split; [apply validateRoom_nil|].
  intros Hv n Hn. apply validateRoom_nil in Hv as (? & ? & ? & ? & _ & ?).
  apply validateRoom_nil. by split_and!.
Qed.

Lemma validateRoom_accepts_witness :
  validateRoom (sampleRoomBody 1 1) = []
  ∧ validateRoom (RoomBody.withAvailableRooms 2 (sampleRoomBody 1 1)) = [].
Proof.
  destruct (validateRoom_accepts (sampleRoomBody 1 1)) as [_ Hany].
  split; [reflexivity|]. apply Hany; [reflexivity|]. vm_compute. discriminate.
Defined.

Lemma countWhere_none (cond : Booking.t -> bool) (db : Db) :
  (∀ k b, bookings db !! k = Some b → cond b = false) →
  countWhere cond db = 0%nat.
Proof.
  intros Hnone. unfold countWhere. apply map_size_empty_iff.
  apply map_empty. intros k.
  destruct (filter _ (bookings db) !! k) as [b|] eqn:Hk; [|done].
  apply map_lookup_filter_Some in Hk as [Hk Hc]. cbn in Hc.
  rewrite (Hnone k b Hk) in Hc. discriminate Hc.
Qed.

(** X27: a created room is offered with the number of available rooms it
    was created with: when no stored booking refers to the new identifier,
    the availability check of the new room, for any range in order,
    reports no booked room, the [availableRooms] of the request (also when
    it exceeds [totalRooms]) and availability exactly when that number is
    positive. *)
Theorem created_room_availability (hotels : gset string) (db db' : Db)
    (user : User.t) (body : RoomBody.t) (newId : string) (room : Room.t)
    (c d : Z) :
  createRoom hotels db user body newId = (db', RoomOk room) →
  (∀ k b, bookings db !! k = Some b → Booking.roomId b ≠ newId) →
  c < d →
  checkAvailability db' newId (Some c) (Some d)
  = Ok (Availability.mk newId c d (RoomBody.totalRooms body) 0
          (RoomBody.availableRooms body) (RoomBody.availableRooms body >? 0)).
Proof.
  intros Hc Hfree Hcd. unfold createRoom in Hc.
  destruct (negb _); [discriminate|].
  destruct (validateRoom body) eqn:Hv; [|discriminate].
  destruct (bool_decide _); [|discriminate].
  destruct (rooms db !! newId); [discriminate|].
  injection Hc as <- <-.
  apply validateRoom_nil in Hv as (_ & _ & _ & _ & Hav & _).
  erewrite checkAvailability_valid; [|cbn; apply lookup_insert_eq|exact Hcd].
  rewrite countWhere_none.
  - cbn. rewrite Z.sub_0_r. by rewrite Z.max_r.
  - intros k b Hk. cbn in Hk. apply Hfree in Hk.
    apply String.eqb_neq in Hk. unfold conflictWhere. by rewrite Hk.
Qed.

Lemma created_room_availability_witness :
  let db := sampleDb (sampleRoom 1 1) [] in
  let db' := (createRoom {[ "h1"%string ]} db administrator
                (sampleRoomBody 1 2) "r2").1 in
  checkAvailability db' "r2" (Some (jan2024 11)) (Some (jan2024 13))
  = Ok (Availability.mk "r2" (jan2024 11) (jan2024 13) 1 0 2 true).
Proof.
  intros db db'.
  apply (created_room_availability {[ "h1"%string ]} db db' administrator
           (sampleRoomBody 1 2) "r2"
           (Room.mk "r2" "h1" "Double" (2000 # 1) 1 2)).
  - vm_compute. reflexivity.
  - intros k b Hk. unfold db, sampleDb in Hk. cbn in Hk.
    rewrite lookup_empty in Hk. discriminate Hk.
  - vm_compute. reflexivity.
Defined.

(** X28: the checks of a room update come in the order role, validation,
    hotel, room; a refused update writes nothing; and an accepted one
    replaces the fields of that one room, keeps its identifier, and leaves
    every other room and every booking, with its total price, as it
    was. *)
Theorem updateRoom_behaviour (hotels : gset string) (db : Db) (user : User.t)
    (id : string) (body : RoomBody.t) :
  let out := updateRoom hotels db user id body in
  (isAdmin user = false → out = (db, RoomErr AccessDenied))
  ∧ (isAdmin user = true → validateRoom body ≠ [] →
     out = (db, RoomErr (ValidationError (validateRoom body))))
  ∧ (isAdmin user = true → validateRoom body = [] →
     RoomBody.hotelId body ∉ hotels → out = (db, HotelNotFound))
  ∧ (isAdmin user = true → validateRoom body = [] →
     RoomBody.hotelId body ∈ hotels → rooms db !! id = None →
     out = (db, RoomErr RoomNotFound))
  ∧ (∀ room, out.2 = RoomOk room →
       ∃ old, rooms db !! id = Some old
              ∧ room = Room.mk (Room.id old) (RoomBody.hotelId body)
                         (RoomBody.type body) (RoomBody.price body)
                         (RoomBody.totalRooms body) (RoomBody.availableRooms body)
              ∧ rooms out.1 !! id = Some room
              ∧ (∀ other, other ≠ id → rooms out.1 !! other = rooms db !! other))
  ∧ bookings out.1 = bookings db.
Proof.
  cbn zeta. unfold updateRoom. split_and!.
  - intros ->. reflexivity.
  - intros -> Hv. cbn [negb]. by destruct (validateRoom body).
  - intros -> Hv Hh. cbn [negb]. rewrite Hv.
    apply validateRoom_nil in Hv as (Hne & _).
    apply String.eqb_neq in Hne. rewrite Hne.
    by rewrite bool_decide_eq_false_2.
  - intros -> Hv Hh ->. cbn [negb]. rewrite Hv.
    by rewrite bool_decide_eq_true_2, andb_false_r.
  - intros room. destruct (negb (isAdmin user)); [discriminate|].
    destruct (validateRoom body); [|discriminate].
    destruct (_ && _); [discriminate|].
    destruct (rooms db !! id) as [old|]; [|discriminate].
    cbn. intros [= <-]. exists old. split_and!; try done.
    + apply lookup_insert_eq.
    + intros other Hne. by rewrite lookup_insert_ne.
  - destruct (negb (isAdmin user)); [done|].
    destruct (validateRoom body); [|done].
    destruct (_ && _); [done|].
    by destruct (rooms db !! id).
Qed.

Lemma updateRoom_behaviour_witness :
  let db := sampleDb (sampleRoom 2 2)
              [stay "b1" (jan2024 10) (jan2024 15) CONFIRMED] in
  updateRoom {[ "h1"%string ]} db guest "r1" (sampleRoomBody 2 0)
  = (db, RoomErr AccessDenied)
  ∧ updateRoom {[ "h1"%string ]} db administrator "r9" (sampleRoomBody 2 0)
    = (db, RoomErr RoomNotFound)
  ∧ updateRoom ∅ db administrator "r9" (sampleRoomBody 2 0)
    = (db, HotelNotFound).
Proof.
  intros db.
  destruct (updateRoom_behaviour {[ "h1"%string ]} db guest "r1"
              (sampleRoomBody 2 0)) as (Hdenied & _).
  destruct (updateRoom_behaviour {[ "h1"%string ]} db administrator "r9"
              (sampleRoomBody 2 0)) as (_ & _ & _ & Hroom & _).
  destruct (updateRoom_behaviour ∅ db administrator "r9"
              (sampleRoomBody 2 0)) as (_ & _ & Hhotel & _).
  split_and!.
  - apply Hdenied. reflexivity.
  - apply Hroom; [reflexivity | reflexivity | | reflexivity].
    by apply elem_of_singleton.
  - apply Hhotel; [reflexivity | reflexivity |]. apply not_elem_of_empty.
Defined.
